(** * Network addresses, classification, grouping and subnets

    A shallow embedding of [src/netaddress.cpp]: the 16-byte address value
    [CNetAddr] with its family tag, the RFC classifiers, the reachability
    score, the network-group key, and [CSubNet].

    Conventions: a [uint8_t] is a [Z] in [0, 256); a [uint32_t] is a [Z] in
    [0, 2^32); an array [uint8_t x[16]] is a [list Z]; a pointer [p + k] into
    such an array is [skipn k p]; a nullable pointer is an [option]. *)

From Stdlib Require Import String Ascii.
From Stdlib Require Import ZArith List Bool Lia.
Import ListNotations.
Local Open Scope Z_scope.

(* ================================================================== *)
(** * Data model *)
(* ================================================================== *)

(** Modelled from the spec: [enum Network] is declared in [netaddress.h],
    which is not among the sources; the enumerators are the ones the code
    names, numbered in declaration order, [NET_MAX] last. *)
Inductive Network : Set :=
| NET_UNROUTABLE
| NET_IPV4
| NET_IPV6
| NET_ONION
| NET_INTERNAL
| NET_MAX.

Definition Network_to_Z (n : Network) : Z :=
  match n with
  | NET_UNROUTABLE => 0
  | NET_IPV4 => 1
  | NET_IPV6 => 2
  | NET_ONION => 3
  | NET_INTERNAL => 4
  | NET_MAX => 5
  end.

Coercion Network_to_Z : Network >-> Z.

Definition Network_eqb (x y : Network) : bool := Network_to_Z x =? Network_to_Z y.

(** Modelled from the spec: the members of [class CNetAddr] ([netaddress.h]):
    [uint8_t ip[16]], [Network m_net] and [uint32_t scopeId]. *)
Record CNetAddr : Type := mkCNetAddr {
  m_net : Network;
  ip : list Z;
  scopeId : Z
}.

Definition is_uint8 (b : Z) : Prop := 0 <= b < 256.

(** The representation invariant of [ip]: sixteen bytes. *)
Definition wf_bytes (n : nat) (l : list Z) : Prop :=
  length l = n /\ Forall is_uint8 l.

Definition wf_addr (a : CNetAddr) : Prop := wf_bytes 16 (ip a).

Definition pchIPv4 : list Z := [0; 0; 0; 0; 0; 0; 0; 0; 0; 0; 0xff; 0xff].
Definition pchOnionCat : list Z := [0xFD; 0x87; 0xD8; 0x7E; 0xEB; 0x43].
Definition g_internal_prefix : list Z := [0xFD; 0x6B; 0x88; 0xC0; 0x87; 0x24].
Definition pchSingleAddressNetmask : list Z :=
  [0xff; 0xff; 0xff; 0xff; 0xff; 0xff; 0xff; 0xff;
   0xff; 0xff; 0xff; 0xff; 0xff; 0xff; 0xff; 0xff].

(* ------------------------------------------------------------------ *)
(** ** Memory primitives *)

(** [std::memcmp(a, b, n)]: sign of the first differing byte. *)
Fixpoint memcmp (a b : list Z) (n : nat) : Z :=
  match n with
  | O => 0
  | S n' =>
      let x := hd 0 a in
      let y := hd 0 b in
      if x <? y then -1
      else if y <? x then 1
      else memcmp (tl a) (tl b) n'
  end.

(** [std::memcpy(dst + off, src, n)]. *)
Definition memcpy (dst : list Z) (off : nat) (src : list Z) (n : nat) : list Z :=
  firstn off dst ++ firstn n src ++ skipn (off + n) dst.

(** [l[i] = v] on an array. *)
Fixpoint upd (l : list Z) (i : nat) (v : Z) : list Z :=
  match l, i with
  | [], _ => []
  | _ :: t, O => v :: t
  | h :: t, S i' => h :: upd t i' v
  end.

(** Truncation to [uint8_t] and [uint32_t]. *)
Definition u8 (x : Z) : Z := x mod 256.
Definition u32 (x : Z) : Z := x mod 2 ^ 32.

(** Modelled from the spec: [ReadBE32] ([crypto/common.h], not among the
    sources) reads four bytes big-endian. *)
Definition ReadBE32 (p : list Z) : Z :=
  Z.lor (Z.shiftl (nth 0 p 0) 24)
        (Z.lor (Z.shiftl (nth 1 p 0) 16)
               (Z.lor (Z.shiftl (nth 2 p 0) 8) (nth 3 p 0))).

(* ------------------------------------------------------------------ *)
(** ** Setters *)

(** A [memcpy] of [sizeof(ip)] bytes overwrites the whole array: the new
    content is the first sixteen bytes of the source. *)
Definition SetIP (a ipIn : CNetAddr) : CNetAddr :=
  {| m_net := m_net ipIn;
     ip := firstn 16 (ip ipIn);
     scopeId := scopeId a |}.

Definition SetLegacyIPv6 (a : CNetAddr) (ipv6 : list Z) : CNetAddr :=
  let net :=
    if memcmp ipv6 pchIPv4 12 =? 0 then NET_IPV4
    else if memcmp ipv6 pchOnionCat 6 =? 0 then NET_ONION
    else if memcmp ipv6 g_internal_prefix 6 =? 0 then NET_INTERNAL
    else NET_IPV6 in
  {| m_net := net;
     ip := firstn 16 ipv6;
     scopeId := scopeId a |}.

(** [SetRaw]; [None] is the failed [assert(!"invalid network")]. *)
Definition SetRaw (a : CNetAddr) (network : Network) (ip_in : list Z)
  : option CNetAddr :=
  match network with
  | NET_IPV4 =>
      Some {| m_net := NET_IPV4;
              ip := firstn 12 pchIPv4 ++ firstn 4 ip_in;
              scopeId := scopeId a |}
  | NET_IPV6 => Some (SetLegacyIPv6 a ip_in)
  | _ => None
  end.

(* ================================================================== *)
(** * Classifier *)
(* ================================================================== *)

Definition GetByte (a : CNetAddr) (n : Z) : Z :=
  nth (Z.to_nat (15 - n)) (ip a) 0.

Definition IsIPv4 (a : CNetAddr) : bool := Network_eqb (m_net a) NET_IPV4.
Definition IsIPv6 (a : CNetAddr) : bool := Network_eqb (m_net a) NET_IPV6.

Definition IsRFC1918 (a : CNetAddr) : bool :=
  IsIPv4 a &&
  ((GetByte a 3 =? 10) ||
   ((GetByte a 3 =? 192) && (GetByte a 2 =? 168)) ||
   ((GetByte a 3 =? 172) && ((16 <=? GetByte a 2) && (GetByte a 2 <=? 31)))).

Definition IsRFC2544 (a : CNetAddr) : bool :=
  IsIPv4 a && (GetByte a 3 =? 198) &&
  ((GetByte a 2 =? 18) || (GetByte a 2 =? 19)).

Definition IsRFC3927 (a : CNetAddr) : bool :=
  IsIPv4 a && ((GetByte a 3 =? 169) && (GetByte a 2 =? 254)).

Definition IsRFC6598 (a : CNetAddr) : bool :=
  IsIPv4 a && (GetByte a 3 =? 100) && (64 <=? GetByte a 2) &&
  (GetByte a 2 <=? 127).

Definition IsRFC5737 (a : CNetAddr) : bool :=
  IsIPv4 a &&
  (((GetByte a 3 =? 192) && (GetByte a 2 =? 0) && (GetByte a 1 =? 2)) ||
   ((GetByte a 3 =? 198) && (GetByte a 2 =? 51) && (GetByte a 1 =? 100)) ||
   ((GetByte a 3 =? 203) && (GetByte a 2 =? 0) && (GetByte a 1 =? 113))).

Definition IsRFC3849 (a : CNetAddr) : bool :=
  IsIPv6 a && (GetByte a 15 =? 0x20) && (GetByte a 14 =? 0x01) &&
  (GetByte a 13 =? 0x0D) && (GetByte a 12 =? 0xB8).

Definition IsRFC3964 (a : CNetAddr) : bool :=
  IsIPv6 a && (GetByte a 15 =? 0x20) && (GetByte a 14 =? 0x02).

Definition pchRFC6052 : list Z := [0; 0x64; 0xFF; 0x9B; 0; 0; 0; 0; 0; 0; 0; 0].

Definition IsRFC6052 (a : CNetAddr) : bool :=
  IsIPv6 a && (memcmp (ip a) pchRFC6052 12 =? 0).

Definition IsRFC4380 (a : CNetAddr) : bool :=
  IsIPv6 a && (GetByte a 15 =? 0x20) && (GetByte a 14 =? 0x01) &&
  (GetByte a 13 =? 0) && (GetByte a 12 =? 0).

Definition pchRFC4862 : list Z := [0xFE; 0x80; 0; 0; 0; 0; 0; 0].

Definition IsRFC4862 (a : CNetAddr) : bool :=
  IsIPv6 a && (memcmp (ip a) pchRFC4862 8 =? 0).

Definition IsRFC4193 (a : CNetAddr) : bool :=
  IsIPv6 a && (Z.land (GetByte a 15) 0xFE =? 0xFC).

Definition pchRFC6145 : list Z := [0; 0; 0; 0; 0; 0; 0; 0; 0xFF; 0xFF; 0; 0].

Definition IsRFC6145 (a : CNetAddr) : bool :=
  IsIPv6 a && (memcmp (ip a) pchRFC6145 12 =? 0).

Definition IsRFC4843 (a : CNetAddr) : bool :=
  IsIPv6 a && (GetByte a 15 =? 0x20) && (GetByte a 14 =? 0x01) &&
  (GetByte a 13 =? 0x00) && (Z.land (GetByte a 12) 0xF0 =? 0x10).

Definition IsRFC7343 (a : CNetAddr) : bool :=
  IsIPv6 a && (GetByte a 15 =? 0x20) && (GetByte a 14 =? 0x01) &&
  (GetByte a 13 =? 0x00) && (Z.land (GetByte a 12) 0xF0 =? 0x20).

Definition IsHeNet (a : CNetAddr) : bool :=
  (GetByte a 15 =? 0x20) && (GetByte a 14 =? 0x01) &&
  (GetByte a 13 =? 0x04) && (GetByte a 12 =? 0x70).

Definition IsTor (a : CNetAddr) : bool := Network_eqb (m_net a) NET_ONION.

Definition IsInternal (a : CNetAddr) : bool := Network_eqb (m_net a) NET_INTERNAL.

Definition pchLocal : list Z := [0; 0; 0; 0; 0; 0; 0; 0; 0; 0; 0; 0; 0; 0; 0; 1].

Definition IsLocal (a : CNetAddr) : bool :=
  if IsIPv4 a && ((GetByte a 3 =? 127) || (GetByte a 3 =? 0)) then true
  else if IsIPv6 a && (memcmp (ip a) pchLocal 16 =? 0) then true
  else false.

Definition ipNone6 : list Z := repeat 0 16.
(** The bytes of [INADDR_NONE] (0xffffffff) and of [0] as a [uint32_t]. *)
Definition INADDR_NONE_bytes : list Z := [0xff; 0xff; 0xff; 0xff].
Definition zero32_bytes : list Z := [0; 0; 0; 0].

Definition IsValid (a : CNetAddr) : bool :=
  if IsIPv6 a && (memcmp (ip a) ipNone6 16 =? 0) then false
  else if IsRFC3849 a then false
  else if IsInternal a then false
  else if IsIPv4 a then
    if memcmp (skipn 12 (ip a)) INADDR_NONE_bytes 4 =? 0 then false
    else if memcmp (skipn 12 (ip a)) zero32_bytes 4 =? 0 then false
    else true
  else true.

Definition IsRoutable (a : CNetAddr) : bool :=
  IsValid a &&
  negb (IsRFC1918 a || IsRFC2544 a || IsRFC3927 a || IsRFC4862 a ||
        IsRFC6598 a || IsRFC5737 a || (IsRFC4193 a && negb (IsTor a)) ||
        IsRFC4843 a || IsRFC7343 a || IsLocal a || IsInternal a).

Definition GetNetwork (a : CNetAddr) : Network :=
  if IsInternal a then NET_INTERNAL
  else if negb (IsRoutable a) then NET_UNROUTABLE
  else m_net a.

Definition HasLinkedIPv4 (a : CNetAddr) : bool :=
  IsRoutable a &&
  (IsIPv4 a || IsRFC6145 a || IsRFC6052 a || IsRFC3964 a || IsRFC4380 a).

(** [~x] on a [uint32_t]. *)
Definition not32 (x : Z) : Z := u32 (Z.lnot x).

(** [GetLinkedIPv4]; [None] is the failed [assert(false)]. *)
Definition GetLinkedIPv4 (a : CNetAddr) : option Z :=
  if IsIPv4 a || IsRFC6145 a || IsRFC6052 a then
    Some (ReadBE32 (skipn 12 (ip a)))
  else if IsRFC3964 a then
    Some (ReadBE32 (skipn 2 (ip a)))
  else if IsRFC4380 a then
    Some (not32 (ReadBE32 (skipn 12 (ip a))))
  else None.

Definition GetNetClass (a : CNetAddr) : Z :=
  let net_class : Z := NET_IPV6 in
  let net_class : Z := if IsLocal a then 255 else net_class in
  let net_class : Z :=
    if IsInternal a then NET_INTERNAL
    else if negb (IsRoutable a) then NET_UNROUTABLE
    else if HasLinkedIPv4 a then NET_IPV4
    else if IsTor a then NET_ONION
    else net_class in
  net_class.

(* ================================================================== *)
(** * Group bucketer *)
(* ================================================================== *)

(** Fallible code (a failed [assert]) lives in the option monad. *)
Definition obind {A B : Type} (m : option A) (k : A -> option B) : option B :=
  match m with
  | Some x => k x
  | None => None
  end.

Notation "x <- m ;; k" := (obind m (fun x => k))
  (at level 61, m at next level, right associativity).

(** The eight bits of a byte, [(c >> (7 - bit_i)) & 1] for [bit_i] = 0..7. *)
Definition byte_bits (c : Z) : list bool :=
  map (fun bit_i => Z.testbit c (7 - Z.of_nat bit_i)) (seq 0 8).

(** The 32 bits of a word, [(w >> (31 - i)) & 1] for [i] = 0..31. *)
Definition word_bits (w : Z) : list bool :=
  map (fun i => Z.testbit w (31 - Z.of_nat i)) (seq 0 32).

(** The 128-bit vector [ip_bits] that [GetMappedAS] hands to the oracle.
    The source fills a [std::vector<bool>(128)] position by position, block
    [byte_i] at [byte_i * 8 .. byte_i * 8 + 7]; the blocks are laid out here
    by concatenation. *)
Definition GetMappedAS_ip_bits (a : CNetAddr) : option (list bool) :=
  if HasLinkedIPv4 a then
    ipv4 <- GetLinkedIPv4 a ;;
    Some (concat (map (fun byte_i => byte_bits (nth byte_i pchIPv4 0)) (seq 0 12))
            ++ word_bits ipv4)
  else
    Some (concat (map (fun byte_i => byte_bits (GetByte a (15 - Z.of_nat byte_i)))
                      (seq 0 16))).

(** The bytes [vchRet.push_back(GetByte(15 - nStartByte))] while
    [nBits >= 8]: the state is ([vchRet], [nStartByte], [nBits]). *)
Fixpoint push_whole_bytes (fuel : nat) (a : CNetAddr)
  (vchRet : list Z) (nStartByte nBits : Z) : list Z * Z * Z :=
  match fuel with
  | O => (vchRet, nStartByte, nBits)
  | S fuel' =>
      if 8 <=? nBits then
        push_whole_bytes fuel' a (vchRet ++ [u8 (GetByte a (15 - nStartByte))])
                         (nStartByte + 1) (nBits - 8)
      else (vchRet, nStartByte, nBits)
  end.

(** The tail of [GetGroup] after the prefix-length policy has been chosen. *)
Definition push_prefix (a : CNetAddr) (vchRet : list Z) (nStartByte nBits : Z)
  : list Z :=
  let '(vchRet, nStartByte, nBits) :=
    push_whole_bytes (Z.to_nat nBits) a vchRet nStartByte nBits in
  if 0 <? nBits then
    vchRet ++ [u8 (Z.lor (GetByte a (15 - nStartByte))
                         (Z.shiftl 1 (8 - nBits) - 1))]
  else vchRet.

Section ASMap.

(** The AS-number oracle [Interpret] ([util/asmap.h], not among the
    sources): from the serialized map and the 128 address bits to a
    [uint32_t], 0 meaning not found. *)
Variable Interpret : list bool -> list bool -> Z.

Definition GetMappedAS (asmap : list bool) (a : CNetAddr) : option Z :=
  let net_class := GetNetClass a in
  if (length asmap =? 0)%nat ||
     (negb (net_class =? NET_IPV4) && negb (net_class =? NET_IPV6))
  then Some 0
  else
    ip_bits <- GetMappedAS_ip_bits a ;;
    let mapped_as := Interpret asmap ip_bits in
    Some mapped_as.

Definition GetGroup (asmap : list bool) (a : CNetAddr) : option (list Z) :=
  let vchRet : list Z := [] in
  asn <- GetMappedAS asmap a ;;
  if negb (asn =? 0) then
    let vchRet := vchRet ++ [u8 NET_IPV6] in
    let vchRet :=
      fold_left (fun v i => v ++ [u8 (Z.land (Z.shiftr asn (8 * i)) 0xFF)])
                [0; 1; 2; 3] vchRet in
    Some vchRet
  else
    let vchRet := vchRet ++ [GetNetClass a] in
    let nStartByte := 0 in
    let nBits := 16 in
    if IsLocal a then
      Some (push_prefix a vchRet nStartByte 0)
    else if IsInternal a then
      Some (push_prefix a vchRet 6 ((16 - 6) * 8))
    else if negb (IsRoutable a) then
      Some (push_prefix a vchRet nStartByte 0)
    else if HasLinkedIPv4 a then
      ipv4 <- GetLinkedIPv4 a ;;
      let vchRet := vchRet ++ [u8 (Z.land (Z.shiftr ipv4 24) 0xFF)] in
      let vchRet := vchRet ++ [u8 (Z.land (Z.shiftr ipv4 16) 0xFF)] in
      Some vchRet
    else if IsTor a then
      Some (push_prefix a vchRet 6 4)
    else if IsHeNet a then
      Some (push_prefix a vchRet nStartByte 36)
    else
      Some (push_prefix a vchRet nStartByte 32).

End ASMap.

(* ================================================================== *)
(** * Reachability scorer *)
(* ================================================================== *)

Definition NET_UNKNOWN : Z := NET_MAX + 0.
Definition NET_TEREDO : Z := NET_MAX + 1.

Definition GetExtNetwork (addr : option CNetAddr) : Z :=
  match addr with
  | None => NET_UNKNOWN
  | Some addr =>
      if IsRFC4380 addr then NET_TEREDO
      else GetNetwork addr
  end.

Inductive Reachability : Set :=
| REACH_UNREACHABLE
| REACH_DEFAULT
| REACH_TEREDO
| REACH_IPV6_WEAK
| REACH_IPV4
| REACH_IPV6_STRONG
| REACH_PRIVATE.

Definition Reachability_to_Z (r : Reachability) : Z :=
  match r with
  | REACH_UNREACHABLE => 0
  | REACH_DEFAULT => 1
  | REACH_TEREDO => 2
  | REACH_IPV6_WEAK => 3
  | REACH_IPV4 => 4
  | REACH_IPV6_STRONG => 5
  | REACH_PRIVATE => 6
  end.

Definition GetReachabilityFrom (a : CNetAddr) (paddrPartner : option CNetAddr)
  : Reachability :=
  if negb (IsRoutable a) || IsInternal a then REACH_UNREACHABLE
  else
    let ourNet := GetExtNetwork (Some a) in
    let theirNet := GetExtNetwork paddrPartner in
    let fTunnel := IsRFC3964 a || IsRFC6052 a || IsRFC6145 a in
    if theirNet =? NET_IPV4 then
      if ourNet =? NET_IPV4 then REACH_IPV4
      else REACH_DEFAULT
    else if theirNet =? NET_IPV6 then
      if ourNet =? NET_TEREDO then REACH_TEREDO
      else if ourNet =? NET_IPV4 then REACH_IPV4
      else if ourNet =? NET_IPV6 then
        (if fTunnel then REACH_IPV6_WEAK else REACH_IPV6_STRONG)
      else REACH_DEFAULT
    else if theirNet =? NET_ONION then
      if ourNet =? NET_IPV4 then REACH_IPV4
      else if ourNet =? NET_ONION then REACH_PRIVATE
      else REACH_DEFAULT
    else if theirNet =? NET_TEREDO then
      if ourNet =? NET_TEREDO then REACH_TEREDO
      else if ourNet =? NET_IPV6 then REACH_IPV6_WEAK
      else if ourNet =? NET_IPV4 then REACH_IPV4
      else REACH_DEFAULT
    else
      if ourNet =? NET_TEREDO then REACH_TEREDO
      else if ourNet =? NET_IPV6 then REACH_IPV6_WEAK
      else if ourNet =? NET_IPV4 then REACH_IPV4
      else if ourNet =? NET_ONION then REACH_PRIVATE
      else REACH_DEFAULT.

(* ================================================================== *)
(** * Subnets *)
(* ================================================================== *)

(** Modelled from the spec: the members of [class CSubNet] ([netaddress.h]):
    [CNetAddr network], [uint8_t netmask[16]] and [bool valid]. *)
Record CSubNet : Type := mkCSubNet {
  network : CNetAddr;
  netmask : list Z;
  valid : bool
}.

Definition set_ip (a : CNetAddr) (bytes : list Z) : CNetAddr :=
  {| m_net := m_net a; ip := bytes; scopeId := scopeId a |}.

(** [for (int x = 0; x < 16; ++x) network.ip[x] &= netmask[x];] *)
Definition normalize (addr_ip mask : list Z) : list Z :=
  fold_left (fun ipv x => upd ipv x (Z.land (nth x ipv 0) (nth x mask 0)))
            (seq 0 16) addr_ip.

(** [netmask[n >> 3] &= ~(1 << (7 - (n & 7)))] *)
Definition clear_bit (mask : list Z) (n : Z) : list Z :=
  let i := Z.to_nat (Z.shiftr n 3) in
  upd mask i (u8 (Z.land (nth i mask 0) (Z.lnot (Z.shiftl 1 (7 - Z.land n 7))))).

(** The integers [lo, lo+1, ..., hi-1] a [for] loop runs through. *)
Definition zrange (lo hi : Z) : list Z :=
  map (fun k => lo + Z.of_nat k) (seq 0 (Z.to_nat (hi - lo))).

Definition CSubNet_cidr (addr : CNetAddr) (mask : Z) : CSubNet :=
  let netmask0 := firstn 16 pchSingleAddressNetmask in
  let astartofs := if IsIPv4 addr then 12 else 0 in
  let n := mask in
  let '(netmask1, valid1) :=
    if (0 <=? n) && (n <=? 128 - astartofs * 8) then
      let n := n + astartofs * 8 in
      (fold_left clear_bit (zrange n 128) netmask0, true)
    else (netmask0, false) in
  {| network := set_ip addr (normalize (ip addr) netmask1);
     netmask := netmask1;
     valid := valid1 |}.

Definition NetmaskBits (x : Z) : Z :=
  if x =? 0x00 then 0
  else if x =? 0x80 then 1
  else if x =? 0xc0 then 2
  else if x =? 0xe0 then 3
  else if x =? 0xf0 then 4
  else if x =? 0xf8 then 5
  else if x =? 0xfc then 6
  else if x =? 0xfe then 7
  else if x =? 0xff then 8
  else -1.

(** The validation loop of the explicit-mask constructor over the indices
    [idx]; [false] is the early [valid = false; return]. *)
Fixpoint mask_scan (idx : list nat) (mask_ip : list Z) (zeros_found : bool)
  : bool :=
  match idx with
  | [] => true
  | i :: rest =>
      let num_bits := NetmaskBits (nth i mask_ip 0) in
      if (num_bits =? -1) || (zeros_found && negb (num_bits =? 0)) then false
      else mask_scan rest mask_ip (if num_bits <? 8 then true else zeros_found)
  end.

(** [CSubNet(const CNetAddr &addr, const CNetAddr &mask)].  The member
    [netmask] has no initializer: on the early return it keeps whatever the
    object's storage held, [storage]. *)
Definition CSubNet_mask (storage : list Z) (addr mask : CNetAddr) : CSubNet :=
  let start := if IsIPv4 mask then 12%nat else 0%nat in
  if negb (mask_scan (seq start (16 - start)) (ip mask) false) then
    {| network := addr; netmask := storage; valid := false |}
  else
    let netmask0 := firstn 16 pchSingleAddressNetmask in
    let astartofs := if IsIPv4 addr then 12%nat else 0%nat in
    let netmask1 :=
      fold_left (fun nm x => upd nm x (nth x (ip mask) 0))
                (seq astartofs (16 - astartofs)) netmask0 in
    {| network := set_ip addr (normalize (ip addr) netmask1);
       netmask := netmask1;
       valid := true |}.

Definition CSubNet_single (addr : CNetAddr) : CSubNet :=
  {| network := addr;
     netmask := firstn 16 pchSingleAddressNetmask;
     valid := IsValid addr |}.

Definition Match (s : CSubNet) (addr : CNetAddr) : bool :=
  if negb (valid s) || negb (IsValid addr) ||
     negb (Network_eqb (m_net (network s)) (m_net addr))
  then false
  else
    forallb (fun x => Z.land (nth x (ip addr) 0) (nth x (netmask s) 0)
                      =? nth x (ip (network s)) 0)
            (seq 0 16).

(* ================================================================== *)
(** * Onion names *)
(* ================================================================== *)

(** [std::string::c_str()] read as a C string: the characters before the
    first NUL. *)
Fixpoint c_str (s : string) : string :=
  match s with
  | EmptyString => EmptyString
  | String c rest =>
      if Ascii.eqb c zero then EmptyString else String c (c_str rest)
  end.

Section Onion.

(** [DecodeBase32] on a C string ([util/strencodings.h], not among the
    sources). *)
Variable DecodeBase32 : string -> list Z.

(** [SetSpecial] returns its result together with the address after the
    call. *)
Definition SetSpecial (a : CNetAddr) (strName : string) : bool * CNetAddr :=
  let size := String.length strName in
  if (6 <? size)%nat &&
     String.eqb (substring (size - 6) 6 strName) ".onion"
  then
    let vchAddr := DecodeBase32 (c_str (substring 0 (size - 6) strName)) in
    if negb (length vchAddr =? 16 - 6)%nat then (false, a)
    else
      let ip0 := memcpy (ip a) 0 pchOnionCat 6 in
      let ip1 :=
        fold_left (fun ipv i => upd ipv (i + 6) (nth i vchAddr 0))
                  (seq 0 (16 - 6)) ip0 in
      (true, {| m_net := NET_ONION; ip := ip1; scopeId := scopeId a |})
  else (false, a).

End Onion.

(* ================================================================== *)
(** * Further operations *)
(* ================================================================== *)

(** [operator==] and [operator<] on [CNetAddr]. *)
Definition CNetAddr_eq (a b : CNetAddr) : bool :=
  (Network_to_Z (m_net a) =? Network_to_Z (m_net b)) &&
  (memcmp (ip a) (ip b) 16 =? 0).

Definition CNetAddr_lt (a b : CNetAddr) : bool :=
  (Network_to_Z (m_net a) <? Network_to_Z (m_net b)) ||
  ((Network_to_Z (m_net a) =? Network_to_Z (m_net b)) &&
   (memcmp (ip a) (ip b) 16 <? 0)).

(** [GetInAddr] and [GetIn6Addr]: the bytes copied to the out-parameter, or
    [None] for the result [false]. *)
Definition GetInAddr (a : CNetAddr) : option (list Z) :=
  if negb (IsIPv4 a) then None
  else Some (firstn 4 (skipn 12 (ip a))).

Definition GetIn6Addr (a : CNetAddr) : option (list Z) :=
  if negb (IsIPv6 a) then None
  else Some (firstn 16 (ip a)).

Section Internal.

(** [CSHA256().Write(name).Finalize(hash)] ([crypto/sha256.h], not among the
    sources): the 32 bytes of the hash of [name]. *)
Variable CSHA256 : string -> list Z.

(** [SetInternal] returns its result together with the address after the
    call. *)
Definition SetInternal (a : CNetAddr) (name : string) : bool * CNetAddr :=
  if (String.length name =? 0)%nat then (false, a)
  else
    let hash := firstn 32 (CSHA256 name) in
    let ip0 := memcpy (ip a) 0 g_internal_prefix 6 in
    let ip1 := memcpy ip0 6 hash (16 - 6) in
    (true, {| m_net := NET_INTERNAL; ip := ip1; scopeId := scopeId a |}).

End Internal.

(** [CSubNet::IsSingleIP]. *)
Definition IsSingleIP (s : CSubNet) : bool :=
  0 =? memcmp (netmask s) pchSingleAddressNetmask 16.

(** The loop of [CSubNet::ToString] that counts the prefix length [cidr], a
    [uint8_t], over the indices [idx]; the loop stops at the first zero
    byte. *)
Fixpoint ToString_cidr_loop (idx : list nat) (mask : list Z) (cidr : Z) : Z :=
  match idx with
  | [] => cidr
  | i :: rest =>
      if nth i mask 0 =? 0x00 then cidr
      else ToString_cidr_loop rest mask (u8 (cidr + NetmaskBits (nth i mask 0)))
  end.

(** The prefix length that [CSubNet::ToString] prints after the slash (the
    address part of the string goes through [getnameinfo] and is not
    modelled). *)
Definition ToString_cidr (s : CSubNet) : Z :=
  let start := if IsIPv4 (network s) then 12%nat else 0%nat in
  ToString_cidr_loop (seq start (16 - start)) (netmask s) 0.

(** [operator==] and [operator<] on [CSubNet]. *)
Definition CSubNet_eq (a b : CSubNet) : bool :=
  Bool.eqb (valid a) (valid b) &&
  CNetAddr_eq (network a) (network b) &&
  (memcmp (netmask a) (netmask b) 16 =? 0).

Definition CSubNet_lt (a b : CSubNet) : bool :=
  CNetAddr_lt (network a) (network b) ||
  (CNetAddr_eq (network a) (network b) &&
   (memcmp (netmask a) (netmask b) 16 <? 0)).

(** Modelled from the spec: [class CService] ([netaddress.h]) is a
    [CNetAddr] with a [uint16_t port]. *)
Record CService : Type := mkCService {
  service_addr : CNetAddr;
  port : Z
}.

(** [operator==] and [operator<] on [CService]. *)
Definition CService_eq (a b : CService) : bool :=
  CNetAddr_eq (service_addr a) (service_addr b) && (port a =? port b).

Definition CService_lt (a b : CService) : bool :=
  CNetAddr_lt (service_addr a) (service_addr b) ||
  (CNetAddr_eq (service_addr a) (service_addr b) && (port a <? port b)).

(* ================================================================== *)
(** * Sample addresses *)
(* ================================================================== *)

Definition addr_zero : CNetAddr :=
  {| m_net := NET_IPV6; ip := repeat 0 16; scopeId := 0 |}.

(** The address [a.b.c.d], built as [CNetAddr(const in_addr &)] builds it. *)
Definition ipv4_addr (a b c d : Z) : CNetAddr :=
  match SetRaw addr_zero NET_IPV4 [a; b; c; d] with
  | Some r => r
  | None => addr_zero
  end.

(** The address with the sixteen bytes [l], built by [SetLegacyIPv6]. *)
Definition ipv6_addr (l : list Z) : CNetAddr := SetLegacyIPv6 addr_zero l.

Definition loopback4 : CNetAddr := ipv4_addr 127 0 0 1.
Definition loopback6 : CNetAddr := ipv6_addr pchLocal.
Definition public4 : CNetAddr := ipv4_addr 8 8 8 8.
Definition public4' : CNetAddr := ipv4_addr 8 8 4 4.
Definition private4 : CNetAddr := ipv4_addr 10 0 0 1.
(** 2002:0808:0909::1, a 6to4 address embedding 8.8.9.9. *)
Definition sixto4 : CNetAddr :=
  ipv6_addr [0x20; 0x02; 8; 8; 9; 9; 0; 0; 0; 0; 0; 0; 0; 0; 0; 1].
(** 2001:0:...:f7f7:0304, a Teredo address embedding 8.8.252.251. *)
Definition teredo : CNetAddr :=
  ipv6_addr [0x20; 0x01; 0; 0; 1; 2; 3; 4; 5; 6; 7; 8; 0xF7; 0xF7; 3; 4].
(** 64:ff9b::8.8.1.2 (RFC 6052) and ::ffff:0:8.8.1.2 (RFC 6145). *)
Definition nat64 : CNetAddr :=
  ipv6_addr [0; 0x64; 0xFF; 0x9B; 0; 0; 0; 0; 0; 0; 0; 0; 8; 8; 1; 2].
Definition siit : CNetAddr :=
  ipv6_addr [0; 0; 0; 0; 0; 0; 0; 0; 0xFF; 0xFF; 0; 0; 8; 8; 1; 2].
(** 2a00:1450::1, a plain routable IPv6 address. *)
Definition public6 : CNetAddr :=
  ipv6_addr [0x2a; 0; 0x14; 0x50; 0; 0; 0; 0; 0; 0; 0; 0; 0; 0; 0; 1].
Definition onion : CNetAddr :=
  ipv6_addr (pchOnionCat ++ [1; 2; 3; 4; 5; 6; 7; 8; 9; 10]).
Definition internal : CNetAddr :=
  ipv6_addr (g_internal_prefix ++ [1; 2; 3; 4; 5; 6; 7; 8; 9; 10]).

(* ================================================================== *)
(** * Specification-level notions *)
(* ================================================================== *)

(** The value of a byte string read big-endian. *)
Definition be_value (l : list Z) : Z :=
  fold_left (fun acc b => acc * 256 + b) l 0.

(** The value of a byte string read little-endian. *)
Definition le_value (l : list Z) : Z :=
  fold_right (fun b acc => b + 256 * acc) 0 l.

(** A decision procedure for [wf_bytes]. *)
Definition wf_bytesb (n : nat) (l : list Z) : bool :=
  (length l =? n)%nat && forallb (fun b => (0 <=? b) && (b <? 256)) l.

(** [buf] starts with the bytes [p]. *)
Definition has_prefix (p buf : list Z) : Prop :=
  exists rest : list Z, buf = p ++ rest.

(** The bits of a byte string, most significant bit of the first byte
    first. *)
Definition bits_of_bytes (l : list Z) : list bool := concat (map byte_bits l).

(** A netmask proper: a run of one-bits followed by zero-bits only. *)
Definition mask_contiguous (bits : list bool) : Prop :=
  exists k : nat, bits = repeat true k ++ repeat false (length bits - k).

(** The same, decided: no one-bit after a zero-bit. *)
Fixpoint ones_then_zeros (bits : list bool) : bool :=
  match bits with
  | [] => true
  | true :: rest => ones_then_zeros rest
  | false :: rest => forallb negb rest
  end.

(** The bits of the two addresses agree on the first [k] positions. *)
Definition same_prefix_bits (k : nat) (x y : list Z) : Prop :=
  firstn k (bits_of_bytes x) = firstn k (bits_of_bytes y).

(** The prefix mask of [k] one-bits over [len] bits. *)
Definition prefix_mask_bits (k len : nat) : list bool :=
  repeat true k ++ repeat false (len - k).

(** What the prefix-length constructor must produce for the prefix length
    [n] on an address of the given family: decided for one [n]. *)
Definition cidr_netmask_ok (addr : CNetAddr) (n : Z) : bool :=
  let ofs := if IsIPv4 addr then 96 else 0 in
  let s := CSubNet_cidr addr n in
  valid s &&
  wf_bytesb 16 (netmask s) &&
  (if list_eq_dec bool_dec (bits_of_bytes (netmask s))
        (prefix_mask_bits (Z.to_nat (ofs + n)) 128)
   then true else false) &&
  (ToString_cidr s =? n) &&
  Bool.eqb (IsSingleIP s) (n =? 128 - ofs) &&
  (if IsIPv4 addr then forallb (Z.eqb 0xFF) (firstn 12 (netmask s)) else true).

(** The number a bit string denotes, most significant bit first. *)
Definition bits_value (l : list bool) : Z :=
  fold_left (fun acc (b : bool) => 2 * acc + (if b then 1 else 0)) l 0.

(** The netmask byte with [j] leading one-bits. *)
Definition mask_byte (j : nat) : Z := 256 - 2 ^ (8 - Z.of_nat j).

(** Masking a byte [c] with [mask_byte j] keeps its [j] leading bits and
    nothing else; and a byte with the bits of [mask_byte j] is that byte:
    decided for one [c]. *)
Definition prefix_byte_ok (c : Z) : bool :=
  forallb
    (fun j =>
       (if list_eq_dec bool_dec
             (firstn j (byte_bits (Z.land c (mask_byte j))))
             (firstn j (byte_bits c))
        then true else false) &&
       (Z.land c (mask_byte j)
        =? bits_value (firstn j (byte_bits c)) * 2 ^ (8 - Z.of_nat j)) &&
       (if list_eq_dec bool_dec (byte_bits c) (prefix_mask_bits j 8)
        then c =? mask_byte j else true))
    (seq 0 9).

(** The network of a subnet that went through the normalizing loop. *)
Definition normalized (addr : CNetAddr) (s : CSubNet) : Prop :=
  m_net (network s) = m_net addr /\
  scopeId (network s) = scopeId addr /\
  ip (network s)
  = map (fun i => Z.land (nth i (ip addr) 0) (nth i (netmask s) 0)) (seq 0 16) /\
  forall i : nat, (i < 16)%nat ->
    Z.land (nth i (ip (network s)) 0) (nth i (netmask s) 0)
    = nth i (ip (network s)) 0.

(** The netmask of a prefix-length subnet passes the validation loop of
    the explicit-mask constructor: decided for one [n]. *)
Definition cidr_mask_accepted (addr : CNetAddr) (n : Z) : bool :=
  let start := if IsIPv4 addr then 12%nat else 0%nat in
  mask_scan (seq start (16 - start)) (netmask (CSubNet_cidr addr n)) false.

(** The four bytes of a 32-bit word, most significant first. *)
Definition be_bytes32 (v : Z) : list Z :=
  [Z.land (Z.shiftr v 24) 0xFF; Z.land (Z.shiftr v 16) 0xFF;
   Z.land (Z.shiftr v 8) 0xFF; Z.land v 0xFF].

(** The shape of one mask byte against [NetmaskBits]: a byte with [k]
    leading one-bits, or a byte that is no netmask byte. *)
Definition mask_byte_ok (b : Z) : bool :=
  let k := NetmaskBits b in
  if k =? -1 then negb (ones_then_zeros (byte_bits b))
  else
    if list_eq_dec bool_dec (byte_bits b)
         (repeat true (Z.to_nat k) ++ repeat false (8 - Z.to_nat k))
    then (0 <=? k) && (k <=? 8)
    else false.

(** The masks 255.255.240.15 (the bytes F0 0F of the specification),
    255.255.0.0 as an IPv4 address, and ::ffff:0, the IPv6 address with the
    same last four bytes. *)
Definition mask_f0_0f : CNetAddr := ipv4_addr 255 255 0xF0 0x0F.
Definition mask4_slash16 : CNetAddr := ipv4_addr 255 255 0 0.
Definition mask6_low16 : CNetAddr :=
  ipv6_addr [0; 0; 0; 0; 0; 0; 0; 0; 0; 0; 0; 0; 255; 255; 0; 0].

(* ================================================================== *)
(** * Basic facts *)
(* ================================================================== *)

Lemma Network_eqb_eq (x y : Network) : Network_eqb x y = true <-> x = y.
Proof.
  unfold Network_eqb; rewrite Z.eqb_eq.
  split; [| intros ->; reflexivity].
  destruct x, y; simpl; intros H; try reflexivity; discriminate H.
Qed.

Lemma Network_eqb_refl (x : Network) : Network_eqb x x = true.
Proof. apply Network_eqb_eq; reflexivity. Qed.

(** A local address is never routable and never internal. *)
Lemma IsLocal_not_routable (a : CNetAddr) :
  IsLocal a = true -> IsRoutable a = false /\ IsInternal a = false.
Proof.
  intros HL; split.
  - unfold IsRoutable; rewrite HL.
    rewrite !orb_true_r; simpl; apply andb_false_r.
  - unfold IsLocal, IsIPv4, IsIPv6, IsInternal in *.
    destruct (m_net a); simpl in *; try reflexivity; discriminate HL.
Qed.

Lemma GetNetClass_local (a : CNetAddr) :
  IsLocal a = true -> GetNetClass a = NET_UNROUTABLE.
Proof.
  intros HL; destruct (IsLocal_not_routable a HL) as [HR HI].
  unfold GetNetClass; rewrite HI, HR; reflexivity.
Qed.

(** For a routable address, [GetNetwork] is the stored family. *)
Lemma GetNetwork_routable (a : CNetAddr) :
  IsRoutable a = true -> GetNetwork a = m_net a.
Proof.
  intros HR; unfold GetNetwork; rewrite HR.
  destruct (IsInternal a) eqn:HI; [| reflexivity].
  apply Network_eqb_eq in HI; symmetry; exact HI.
Qed.

(* ================================================================== *)
(** * Net class of local addresses *)
(* ================================================================== *)

(** C1: [GetNetClass] should return 255 for every local address.  On the
    loopback address 127.0.0.1, which [IsLocal] accepts, the code returns
    [NET_UNROUTABLE] (0), not 255: the value 255 stored first is overwritten
    by the chain that follows, because a local address is never routable. *)
Theorem GetNetClass_loopback4 :
  IsLocal loopback4 = true /\
  GetNetClass loopback4 = NET_UNROUTABLE /\
  GetNetClass loopback4 <> 255.
Proof.
  split; [reflexivity |].
  split; [apply GetNetClass_local; reflexivity |].
  rewrite GetNetClass_local by reflexivity; discriminate.
Qed.

(** The IPv6 loopback address ::1 fares the same. *)
Example GetNetClass_loopback6 :
  IsLocal loopback6 = true /\ GetNetClass loopback6 = NET_UNROUTABLE.
Proof. split; reflexivity. Qed.

(* ================================================================== *)
(** * Reachability *)
(* ================================================================== *)

(** C6: a candidate that is not routable, or is internal, scores
    [REACH_UNREACHABLE] against every partner, the absent one included; the
    score does not depend on the partner. *)
Theorem GetReachabilityFrom_unreachable (a : CNetAddr) :
  IsRoutable a = false \/ IsInternal a = true ->
  (forall paddrPartner : option CNetAddr,
      GetReachabilityFrom a paddrPartner = REACH_UNREACHABLE) /\
  (forall p q : option CNetAddr,
      GetReachabilityFrom a p = GetReachabilityFrom a q).
Proof.
  intros H.
  assert (HU : forall p, GetReachabilityFrom a p = REACH_UNREACHABLE).
  { intros p; unfold GetReachabilityFrom.
    destruct H as [H | H]; rewrite H; simpl; [reflexivity |].
    rewrite orb_true_r; reflexivity. }
  split; [exact HU |].
  intros p q; rewrite (HU p), (HU q); reflexivity.
Qed.

Lemma GetReachabilityFrom_unreachable_witness :
  GetReachabilityFrom private4 None = REACH_UNREACHABLE /\
  GetReachabilityFrom internal (Some public4) = REACH_UNREACHABLE.
Proof.
  split.
  - apply (proj1 (GetReachabilityFrom_unreachable private4
                    (or_introl eq_refl))).
  - apply (proj1 (GetReachabilityFrom_unreachable internal
                    (or_intror eq_refl))).
Defined.

(** The extended class of a routable address, in terms of its family. *)
Lemma GetExtNetwork_routable (a : CNetAddr) :
  IsRoutable a = true ->
  (GetExtNetwork (Some a) = NET_IPV4 <-> IsIPv4 a = true) /\
  (GetExtNetwork (Some a) = NET_ONION <-> IsTor a = true) /\
  (GetExtNetwork (Some a) = NET_IPV6 <->
     IsIPv6 a = true /\ IsRFC4380 a = false).
Proof.
  intros HR; unfold GetExtNetwork.
  rewrite (GetNetwork_routable a HR).
  destruct (IsRFC4380 a) eqn:E.
  - assert (H6 : m_net a = NET_IPV6).
    { unfold IsRFC4380, IsIPv6 in E.
      destruct (Network_eqb (m_net a) NET_IPV6) eqn:E6; [| discriminate E].
      apply Network_eqb_eq; exact E6. }
    unfold IsIPv4, IsIPv6, IsTor; rewrite H6.
    vm_compute; (split; [| split]); split; intros H; try discriminate H;
      destruct H as [_ H]; discriminate H.
  - unfold IsIPv4, IsIPv6, IsTor.
    destruct (m_net a); vm_compute; (split; [| split]); split; intros H;
      try discriminate H; try reflexivity; try (split; reflexivity);
      destruct H as [H _]; discriminate H.
Qed.

(** C2: for a routable, non-internal candidate ([this]) and a partner (the
    destination), by extended class ([GetExtNetwork]): destination IPv4
    gives [REACH_IPV4] when the candidate is IPv4 and [REACH_DEFAULT] for
    every other candidate class; destination Onion and candidate Onion give
    [REACH_PRIVATE]; destination IPv6 and candidate IPv6 give
    [REACH_IPV6_STRONG], or [REACH_IPV6_WEAK] when the candidate is
    tunneled (RFC3964, RFC6052 or RFC6145). *)
Theorem GetReachabilityFrom_table (a : CNetAddr) (partner : option CNetAddr) :
  IsRoutable a = true ->
  IsInternal a = false ->
  (GetExtNetwork partner = NET_IPV4 ->
     (GetExtNetwork (Some a) = NET_IPV4 ->
        GetReachabilityFrom a partner = REACH_IPV4) /\
     (GetExtNetwork (Some a) <> NET_IPV4 ->
        GetReachabilityFrom a partner = REACH_DEFAULT)) /\
  (GetExtNetwork partner = NET_ONION ->
     GetExtNetwork (Some a) = NET_ONION ->
     GetReachabilityFrom a partner = REACH_PRIVATE) /\
  (GetExtNetwork partner = NET_IPV6 ->
     GetExtNetwork (Some a) = NET_IPV6 ->
     (IsRFC3964 a || IsRFC6052 a || IsRFC6145 a = false ->
        GetReachabilityFrom a partner = REACH_IPV6_STRONG) /\
     (IsRFC3964 a || IsRFC6052 a || IsRFC6145 a = true ->
        GetReachabilityFrom a partner = REACH_IPV6_WEAK)).
Proof.
  intros HR HI.
  unfold GetReachabilityFrom; rewrite HR, HI; simpl negb; simpl orb.
  cbv iota.
  split; [| split].
  - intros Ht; rewrite Ht; split; intros Ho.
    + rewrite Ho; reflexivity.
    + apply Z.eqb_neq in Ho; simpl; simpl in Ho; rewrite Ho; reflexivity.
  - intros Ht Ho; rewrite Ht, Ho; reflexivity.
  - intros Ht Ho; rewrite Ht, Ho; split; intros Hf; rewrite Hf; reflexivity.
Qed.

Lemma GetReachabilityFrom_table_witness :
  GetReachabilityFrom public4 (Some public4') = REACH_IPV4 /\
  GetReachabilityFrom onion (Some public4) = REACH_DEFAULT /\
  GetReachabilityFrom onion (Some onion) = REACH_PRIVATE /\
  GetReachabilityFrom public6 (Some public6) = REACH_IPV6_STRONG /\
  GetReachabilityFrom sixto4 (Some public6) = REACH_IPV6_WEAK.
Proof.
  split; [| split; [| split; [| split]]].
  - apply (GetReachabilityFrom_table public4 (Some public4') eq_refl eq_refl);
      reflexivity.
  - apply (GetReachabilityFrom_table onion (Some public4) eq_refl eq_refl);
      [reflexivity | discriminate].
  - apply (GetReachabilityFrom_table onion (Some onion) eq_refl eq_refl);
      reflexivity.
  - apply (GetReachabilityFrom_table public6 (Some public6) eq_refl eq_refl);
      reflexivity.
  - apply (GetReachabilityFrom_table sixto4 (Some public6) eq_refl eq_refl);
      reflexivity.
Defined.

(** A Teredo candidate is IPv6 by family, Teredo by extended class. *)
Example GetReachabilityFrom_teredo :
  IsIPv6 teredo = true /\
  GetExtNetwork (Some teredo) = NET_TEREDO /\
  GetReachabilityFrom teredo (Some public6) = REACH_TEREDO.
Proof. repeat split. Qed.

(* ================================================================== *)
(** * Bytes and words *)
(* ================================================================== *)

(** [memcmp] returns 0 exactly when the first [n] bytes agree. *)
Lemma memcmp_eq_nth (n : nat) : forall a b : list Z,
  memcmp a b n = 0 <-> (forall i, (i < n)%nat -> nth i a 0 = nth i b 0).
Proof.
  induction n as [| n IH]; intros a b; simpl.
  - split; [intros _ i Hi; lia | reflexivity].
  - destruct (hd 0 a <? hd 0 b) eqn:E1; [| destruct (hd 0 b <? hd 0 a) eqn:E2].
    + split; [discriminate |].
      intros H; specialize (H 0%nat ltac:(lia)).
      apply Z.ltb_lt in E1; destruct a, b; simpl in *; lia.
    + split; [discriminate |].
      intros H; specialize (H 0%nat ltac:(lia)).
      apply Z.ltb_lt in E2; destruct a, b; simpl in *; lia.
    + apply Z.ltb_ge in E1, E2.
      rewrite IH; split; intros H i Hi.
      * destruct i as [| i].
        -- destruct a, b; simpl in *; lia.
        -- specialize (H i ltac:(lia)).
           destruct a, b; simpl in *; try exact H;
             destruct i; simpl in *; auto.
      * specialize (H (S i) ltac:(lia)).
        destruct a, b; simpl in *; try exact H; destruct i; simpl in *; auto.
Qed.

Lemma memcmp_eqb_nth (a b : list Z) (n i : nat) :
  (memcmp a b n =? 0) = true -> (i < n)%nat -> nth i a 0 = nth i b 0.
Proof.
  rewrite Z.eqb_eq; intros H; apply memcmp_eq_nth; exact H.
Qed.

Lemma lor_shiftl_add (hi lo k : Z) :
  0 <= k -> 0 <= lo < 2 ^ k ->
  Z.lor (Z.shiftl hi k) lo = hi * 2 ^ k + lo.
Proof.
  intros Hk Hlo.
  rewrite <- Z.shiftl_mul_pow2 by exact Hk.
  rewrite <- Z.lxor_lor, <- Z.add_nocarry_lxor; try reflexivity;
    apply Z.bits_inj'; intros n Hn; rewrite Z.land_spec, Z.bits_0;
    destruct (Z.lt_ge_cases n k) as [Hlt | Hge].
  - rewrite Z.shiftl_spec_low by exact Hlt; reflexivity.
  - rewrite <- (Z.mod_small lo (2 ^ k)) by exact Hlo.
    rewrite Z.mod_pow2_bits_high by lia; apply andb_false_r.
  - rewrite Z.shiftl_spec_low by exact Hlt; reflexivity.
  - rewrite <- (Z.mod_small lo (2 ^ k)) by exact Hlo.
    rewrite Z.mod_pow2_bits_high by lia; apply andb_false_r.
Qed.

(** On four bytes, [ReadBE32] is the big-endian value. *)
Lemma ReadBE32_be_value (b0 b1 b2 b3 : Z) (rest : list Z) :
  is_uint8 b0 -> is_uint8 b1 -> is_uint8 b2 -> is_uint8 b3 ->
  ReadBE32 (b0 :: b1 :: b2 :: b3 :: rest) = be_value [b0; b1; b2; b3] /\
  0 <= be_value [b0; b1; b2; b3] < 2 ^ 32.
Proof.
  unfold is_uint8, ReadBE32, be_value; simpl nth; simpl fold_left.
  intros H0 H1 H2 H3.
  rewrite (lor_shiftl_add b2 b3 8) by lia.
  rewrite (lor_shiftl_add b1 _ 16) by lia.
  rewrite (lor_shiftl_add b0 _ 24) by lia.
  lia.
Qed.

Lemma not32_complement (x : Z) :
  0 <= x < 2 ^ 32 -> not32 x = 2 ^ 32 - 1 - x.
Proof.
  intros Hx; unfold not32, u32.
  replace (Z.lnot x) with (- x - 1) by (unfold Z.lnot; lia).
  symmetry; apply (Z.mod_unique _ _ (-1)); lia.
Qed.

(* ================================================================== *)
(** * Embedded IPv4 addresses *)
(* ================================================================== *)

Lemma wf_bytesb_correct (n : nat) (l : list Z) :
  wf_bytesb n l = true -> wf_bytes n l.
Proof.
  unfold wf_bytesb, wf_bytes; intros H; apply andb_prop in H.
  destruct H as [Hlen Hall]; split; [apply Nat.eqb_eq; exact Hlen |].
  apply Forall_forall; intros b Hb.
  rewrite forallb_forall in Hall; specialize (Hall b Hb).
  unfold is_uint8; lia.
Qed.

Lemma Forall_skipn_uint8 (k : nat) (l : list Z) :
  Forall is_uint8 l -> Forall is_uint8 (skipn k l).
Proof.
  intros H; rewrite <- (firstn_skipn k l) in H.
  apply Forall_app in H; tauto.
Qed.

(** [ReadBE32(ip + k)] is the big-endian value of bytes [k .. k+3]. *)
Lemma ReadBE32_skipn (l : list Z) (k : nat) :
  wf_bytes 16 l -> (k + 4 <= 16)%nat ->
  ReadBE32 (skipn k l) = be_value (firstn 4 (skipn k l)) /\
  0 <= be_value (firstn 4 (skipn k l)) < 2 ^ 32.
Proof.
  intros [Hlen Hall] Hk.
  pose proof (Forall_skipn_uint8 k l Hall) as HF.
  assert (HL : (4 <= length (skipn k l))%nat) by (rewrite length_skipn; lia).
  destruct (skipn k l) as [| b0 [| b1 [| b2 [| b3 rest]]]];
    simpl in HL; try lia.
  repeat (apply Forall_cons_iff in HF; destruct HF as [? HF]).
  simpl firstn; apply ReadBE32_be_value; assumption.
Qed.

Lemma IsIPv6_not_IPv4 (a : CNetAddr) : IsIPv6 a = true -> IsIPv4 a = false.
Proof.
  unfold IsIPv6, IsIPv4; intros H; apply Network_eqb_eq in H; rewrite H.
  reflexivity.
Qed.

Lemma IsRFC6145_inv (a : CNetAddr) :
  IsRFC6145 a = true -> IsIPv6 a = true /\ GetByte a 15 = 0.
Proof.
  unfold IsRFC6145; intros H; apply andb_prop in H; destruct H as [H6 Hm].
  split; [exact H6 |].
  apply (memcmp_eqb_nth _ _ _ 0%nat Hm); lia.
Qed.

Lemma IsRFC6052_inv (a : CNetAddr) :
  IsRFC6052 a = true -> IsIPv6 a = true /\ GetByte a 15 = 0.
Proof.
  unfold IsRFC6052; intros H; apply andb_prop in H; destruct H as [H6 Hm].
  split; [exact H6 |].
  apply (memcmp_eqb_nth _ _ _ 0%nat Hm); lia.
Qed.

Lemma IsRFC3964_inv (a : CNetAddr) :
  IsRFC3964 a = true ->
  IsIPv6 a = true /\ GetByte a 15 = 0x20 /\ GetByte a 14 = 0x02.
Proof.
  unfold IsRFC3964; rewrite !andb_true_iff, !Z.eqb_eq; tauto.
Qed.

Lemma IsRFC4380_inv (a : CNetAddr) :
  IsRFC4380 a = true ->
  IsIPv6 a = true /\ GetByte a 15 = 0x20 /\ GetByte a 14 = 0x01.
Proof.
  unfold IsRFC4380; rewrite !andb_true_iff, !Z.eqb_eq; tauto.
Qed.

(** The five linked-IPv4 encodings exclude each other as far as the
    branches of [GetLinkedIPv4] need it. *)
Lemma linked_first_branch_off (a : CNetAddr) :
  IsIPv6 a = true -> GetByte a 15 = 0x20 ->
  IsIPv4 a || IsRFC6145 a || IsRFC6052 a = false.
Proof.
  intros H6 H15.
  rewrite (IsIPv6_not_IPv4 a H6); simpl.
  destruct (IsRFC6145 a) eqn:E1.
  { apply IsRFC6145_inv in E1; destruct E1 as [_ E1]; rewrite E1 in H15.
    discriminate H15. }
  destruct (IsRFC6052 a) eqn:E2; [| reflexivity].
  apply IsRFC6052_inv in E2; destruct E2 as [_ E2]; rewrite E2 in H15.
  discriminate H15.
Qed.

Lemma GetLinkedIPv4_RFC3964 (a : CNetAddr) :
  IsRFC3964 a = true -> GetLinkedIPv4 a = Some (ReadBE32 (skipn 2 (ip a))).
Proof.
  intros H; unfold GetLinkedIPv4; rewrite H.
  apply IsRFC3964_inv in H; destruct H as (H6 & H15 & _).
  rewrite (linked_first_branch_off a H6 H15); reflexivity.
Qed.

Lemma GetLinkedIPv4_RFC4380 (a : CNetAddr) :
  IsRFC4380 a = true ->
  GetLinkedIPv4 a = Some (not32 (ReadBE32 (skipn 12 (ip a)))).
Proof.
  intros H; unfold GetLinkedIPv4; rewrite H.
  apply IsRFC4380_inv in H; destruct H as (H6 & H15 & H14).
  rewrite (linked_first_branch_off a H6 H15).
  destruct (IsRFC3964 a) eqn:E; [| reflexivity].
  apply IsRFC3964_inv in E; destruct E as (_ & _ & E); rewrite E in H14.
  discriminate H14.
Qed.

(** Under [HasLinkedIPv4] the assertion of [GetLinkedIPv4] is not reached. *)
Lemma GetLinkedIPv4_total (a : CNetAddr) :
  HasLinkedIPv4 a = true -> exists v, GetLinkedIPv4 a = Some v.
Proof.
  unfold HasLinkedIPv4; intros H; apply andb_prop in H; destruct H as [_ H].
  unfold GetLinkedIPv4.
  destruct (IsIPv4 a || IsRFC6145 a || IsRFC6052 a) eqn:E1; [eauto |].
  destruct (IsRFC3964 a) eqn:E2; [eauto |].
  destruct (IsRFC4380 a) eqn:E3; [eauto |].
  simpl in H; discriminate H.
Qed.

(** C5: for an address with [HasLinkedIPv4], [GetLinkedIPv4] does not reach
    its assertion and returns the last four stored bytes read big-endian for
    IPv4, RFC6145 and RFC6052, stored bytes 2..5 read big-endian for RFC3964,
    and the 32-bit complement of the last four bytes read big-endian for
    RFC4380. *)
Theorem GetLinkedIPv4_linked (a : CNetAddr) :
  wf_addr a ->
  HasLinkedIPv4 a = true ->
  exists v : Z,
    GetLinkedIPv4 a = Some v /\
    (IsIPv4 a = true \/ IsRFC6145 a = true \/ IsRFC6052 a = true ->
       v = be_value (skipn 12 (ip a))) /\
    (IsRFC3964 a = true -> v = be_value (firstn 4 (skipn 2 (ip a)))) /\
    (IsRFC4380 a = true -> v = 2 ^ 32 - 1 - be_value (skipn 12 (ip a))).
Proof.
  intros Hwf HL.
  destruct (GetLinkedIPv4_total a HL) as [v Hv].
  exists v; split; [exact Hv |].
  pose proof (ReadBE32_skipn (ip a) 12 Hwf ltac:(lia)) as [R12 B12].
  pose proof (ReadBE32_skipn (ip a) 2 Hwf ltac:(lia)) as [R2 _].
  assert (L12 : firstn 4 (skipn 12 (ip a)) = skipn 12 (ip a)).
  { apply firstn_all2; rewrite length_skipn; destruct Hwf as [-> _]; simpl; lia. }
  rewrite L12 in R12, B12.
  split; [| split]; intros H.
  - assert (E : IsIPv4 a || IsRFC6145 a || IsRFC6052 a = true).
    { destruct H as [H | [H | H]]; rewrite H; rewrite ?orb_true_r; reflexivity. }
    unfold GetLinkedIPv4 in Hv; rewrite E in Hv.
    rewrite <- R12; congruence.
  - rewrite (GetLinkedIPv4_RFC3964 _ H) in Hv.
    rewrite <- R2; congruence.
  - rewrite (GetLinkedIPv4_RFC4380 _ H) in Hv.
    rewrite <- (not32_complement _ B12), <- R12; congruence.
Qed.

Lemma GetLinkedIPv4_linked_witness :
  wf_addr teredo /\
  HasLinkedIPv4 teredo = true /\
  exists v : Z,
    GetLinkedIPv4 teredo = Some v /\
    v = 2 ^ 32 - 1 - be_value [0xF7; 0xF7; 3; 4].
Proof.
  assert (Hwf : wf_addr teredo) by (apply wf_bytesb_correct; reflexivity).
  split; [exact Hwf |].
  split; [reflexivity |].
  destruct (GetLinkedIPv4_linked teredo Hwf eq_refl) as (v & Hv & _ & _ & H3).
  exists v; split; [exact Hv |].
  apply H3; reflexivity.
Defined.


(* ================================================================== *)
(** * Network groups *)
(* ================================================================== *)

Lemma u8_land_255 (x : Z) : u8 (Z.land x 0xFF) = Z.land x 0xFF.
Proof.
  unfold u8; change 0xFF with (Z.ones 8).
  rewrite Z.land_ones by lia.
  apply Z.mod_small; apply Z.mod_pos_bound; lia.
Qed.

Lemma IsRoutable_inv (a : CNetAddr) :
  IsRoutable a = true ->
  IsValid a = true /\ IsLocal a = false /\ IsInternal a = false.
Proof.
  unfold IsRoutable; intros H; apply andb_prop in H; destruct H as [HV H].
  apply negb_true_iff in H; rewrite !orb_false_iff in H.
  tauto.
Qed.

Lemma HasLinkedIPv4_routable (a : CNetAddr) :
  HasLinkedIPv4 a = true -> IsRoutable a = true.
Proof.
  unfold HasLinkedIPv4; intros H; apply andb_prop in H; tauto.
Qed.

Lemma GetNetClass_linked (a : CNetAddr) :
  HasLinkedIPv4 a = true -> GetNetClass a = NET_IPV4.
Proof.
  intros HL; pose proof (HasLinkedIPv4_routable a HL) as HR.
  destruct (IsRoutable_inv a HR) as (_ & _ & HI).
  unfold GetNetClass; rewrite HI, HR, HL; reflexivity.
Qed.

Section Groups.

Variable Interpret : list bool -> list bool -> Z.

Lemma GetMappedAS_empty (a : CNetAddr) : GetMappedAS Interpret [] a = Some 0.
Proof. reflexivity. Qed.

(** With no AS-map, a linked-IPv4 address is keyed by the IPv4 class and
    the two top octets of the embedded address. *)
Lemma GetGroup_linked (a : CNetAddr) (v : Z) :
  HasLinkedIPv4 a = true ->
  GetLinkedIPv4 a = Some v ->
  GetGroup Interpret [] a =
    Some [Network_to_Z NET_IPV4;
          Z.land (Z.shiftr v 24) 0xFF; Z.land (Z.shiftr v 16) 0xFF].
Proof.
  intros HL Hv; pose proof (HasLinkedIPv4_routable a HL) as HR.
  destruct (IsRoutable_inv a HR) as (_ & HLoc & HI).
  unfold GetGroup.
  replace (GetMappedAS Interpret [] a) with (Some 0) by reflexivity.
  cbv beta iota delta [obind].
  change (negb (0 =? 0)) with false; cbv iota.
  rewrite HLoc, HI, HR, HL, Hv, (GetNetClass_linked a HL).
  cbv beta iota delta [obind negb app].
  rewrite !u8_land_255; reflexivity.
Qed.

End Groups.

(** C4: with an empty AS-map, two addresses that both have a linked IPv4
    address, agreeing in its two top octets, get the same group key, and the
    key is the three bytes [NET_IPV4], top octet, second octet of the
    embedded address, whatever the encodings of the two addresses. *)
Theorem GetGroup_linked_same_slash16
  (Interpret : list bool -> list bool -> Z) (a b : CNetAddr) (va vb : Z) :
  HasLinkedIPv4 a = true ->
  HasLinkedIPv4 b = true ->
  GetLinkedIPv4 a = Some va ->
  GetLinkedIPv4 b = Some vb ->
  Z.land (Z.shiftr va 24) 0xFF = Z.land (Z.shiftr vb 24) 0xFF ->
  Z.land (Z.shiftr va 16) 0xFF = Z.land (Z.shiftr vb 16) 0xFF ->
  GetGroup Interpret [] a = GetGroup Interpret [] b /\
  GetGroup Interpret [] a =
    Some [Network_to_Z NET_IPV4;
          Z.land (Z.shiftr va 24) 0xFF; Z.land (Z.shiftr va 16) 0xFF] /\
  GetGroup Interpret [] b =
    Some [Network_to_Z NET_IPV4;
          Z.land (Z.shiftr vb 24) 0xFF; Z.land (Z.shiftr vb 16) 0xFF].
Proof.
  intros Ha Hb Hva Hvb H24 H16.
  rewrite (GetGroup_linked Interpret a va Ha Hva).
  rewrite (GetGroup_linked Interpret b vb Hb Hvb).
  rewrite H24, H16; repeat split; reflexivity.
Qed.

Lemma GetGroup_linked_same_slash16_witness :
  GetGroup (fun _ _ => 0) [] public4 = GetGroup (fun _ _ => 0) [] teredo /\
  GetGroup (fun _ _ => 0) [] public4 = Some [1; 8; 8] /\
  GetGroup (fun _ _ => 0) [] teredo = Some [1; 8; 8].
Proof.
  apply (GetGroup_linked_same_slash16 (fun _ _ => 0) public4 teredo
           0x08080808 0x0808FCFB); reflexivity.
Defined.

(** The same holds across all five encodings. *)
Example GetGroup_linked_encodings :
  map (GetGroup (fun _ _ => 0) []) [public4; public4'; sixto4; nat64; siit; teredo]
  = repeat (Some [1; 8; 8]) 6.
Proof. reflexivity. Qed.

Lemma GetMappedAS_ip_bits_total (a : CNetAddr) :
  exists ip_bits : list bool,
    GetMappedAS_ip_bits a = Some ip_bits /\ length ip_bits = 128%nat.
Proof.
  unfold GetMappedAS_ip_bits.
  destruct (HasLinkedIPv4 a) eqn:HL.
  - destruct (GetLinkedIPv4_total a HL) as [v Hv]; rewrite Hv; simpl obind.
    eexists; split; [reflexivity |].
    reflexivity.
  - eexists; split; reflexivity.
Qed.

(** C3: for an address of net class IPv4 or IPv6 and a non-empty AS-map,
    [GetMappedAS] is the oracle's answer on the 128 address bits; when that
    AS number [n] is not 0, [GetGroup] is the five bytes [NET_IPV6] followed
    by [n] in little-endian order.  The key is a function of [n] alone: the
    classification of the address plays no part in it. *)
Theorem GetGroup_mapped_as
  (Interpret : list bool -> list bool -> Z) (asmap : list bool) (a : CNetAddr) :
  asmap <> [] ->
  GetNetClass a = NET_IPV4 \/ GetNetClass a = NET_IPV6 ->
  exists ip_bits : list bool,
    GetMappedAS_ip_bits a = Some ip_bits /\
    length ip_bits = 128%nat /\
    GetMappedAS Interpret asmap a = Some (Interpret asmap ip_bits) /\
    forall n : Z,
      Interpret asmap ip_bits = n ->
      n <> 0 ->
      GetGroup Interpret asmap a =
        Some [Network_to_Z NET_IPV6;
              Z.land n 0xFF;
              Z.land (Z.shiftr n 8) 0xFF;
              Z.land (Z.shiftr n 16) 0xFF;
              Z.land (Z.shiftr n 24) 0xFF].
Proof.
  intros Hne Hclass.
  destruct (GetMappedAS_ip_bits_total a) as (bits & Hbits & Hlen).
  exists bits; split; [exact Hbits |]; split; [exact Hlen |].
  assert (HM : GetMappedAS Interpret asmap a = Some (Interpret asmap bits)).
  { unfold GetMappedAS.
    destruct asmap as [| x asmap]; [contradiction Hne; reflexivity |].
    simpl length; simpl Nat.eqb; simpl orb.
    destruct Hclass as [-> | ->]; simpl; rewrite Hbits; reflexivity. }
  split; [exact HM |].
  intros n Hn Hn0.
  unfold GetGroup; rewrite HM.
  cbv beta iota delta [obind]; rewrite Hn.
  apply Z.eqb_neq in Hn0; rewrite Hn0.
  cbv beta iota delta [negb fold_left app].
  rewrite !u8_land_255.
  change (8 * 0) with 0; rewrite Z.shiftr_0_r; reflexivity.
Qed.

Lemma GetGroup_mapped_as_witness :
  exists ip_bits : list bool,
    GetMappedAS_ip_bits public4 = Some ip_bits /\
    GetGroup (fun _ _ => 0x01020304) [true] public4 = Some [2; 4; 3; 2; 1].
Proof.
  destruct (GetGroup_mapped_as (fun _ _ => 0x01020304) [true] public4)
    as (bits & Hbits & _ & _ & Hkey).
  - discriminate.
  - left; reflexivity.
  - exists bits; split; [exact Hbits |].
    apply (Hkey 0x01020304); [reflexivity | discriminate].
Defined.

(** An IPv4 address and an IPv6 address mapped to the same AS share a key. *)
Example GetGroup_mapped_as_collide :
  GetGroup (fun _ _ => 64512) [true] public4 = Some [2; 0; 252; 0; 0] /\
  GetGroup (fun _ _ => 64512) [true] public6 = Some [2; 0; 252; 0; 0].
Proof. split; reflexivity. Qed.

Lemma land_255_mod (x : Z) : Z.land x 0xFF = x mod 256.
Proof. change 0xFF with (Z.ones 8); rewrite Z.land_ones by lia; reflexivity. Qed.

(** The four key bytes of an AS number are the number in little-endian
    order. *)
Lemma asn_bytes_little_endian (n : Z) :
  0 <= n < 2 ^ 32 ->
  le_value [Z.land n 0xFF; Z.land (Z.shiftr n 8) 0xFF;
            Z.land (Z.shiftr n 16) 0xFF; Z.land (Z.shiftr n 24) 0xFF] = n.
Proof.
  intros Hn; unfold le_value; cbn [fold_right].
  rewrite !land_255_mod, !Z.shiftr_div_pow2 by lia.
  change (2 ^ 8) with 256; change (2 ^ 16) with (256 * 256);
    change (2 ^ 24) with (256 * 256 * 256);
    change (2 ^ 32) with 4294967296 in Hn.
  rewrite <- !Z.div_div by lia.
  Z.div_mod_to_equations; lia.
Qed.

(** The two top octets of a big-endian word are its first two bytes. *)
Lemma be_value_top_octets (b0 b1 b2 b3 : Z) :
  is_uint8 b0 -> is_uint8 b1 -> is_uint8 b2 -> is_uint8 b3 ->
  Z.land (Z.shiftr (be_value [b0; b1; b2; b3]) 24) 0xFF = b0 /\
  Z.land (Z.shiftr (be_value [b0; b1; b2; b3]) 16) 0xFF = b1.
Proof.
  unfold is_uint8, be_value; cbn [fold_left]; intros H0 H1 H2 H3.
  rewrite !land_255_mod, !Z.shiftr_div_pow2 by lia.
  change (2 ^ 16) with (256 * 256); change (2 ^ 24) with (256 * 256 * 256).
  rewrite <- !Z.div_div by lia.
  split; Z.div_mod_to_equations; lia.
Qed.

(** A plain routable IPv4 address is keyed by its first two octets. *)
Lemma GetGroup_plain_ipv4
  (Interpret : list bool -> list bool -> Z) (a : CNetAddr) :
  wf_addr a ->
  IsIPv4 a = true ->
  IsRoutable a = true ->
  GetGroup Interpret [] a =
    Some [Network_to_Z NET_IPV4; nth 12 (ip a) 0; nth 13 (ip a) 0].
Proof.
  intros Hwf H4 HR.
  assert (HL : HasLinkedIPv4 a = true).
  { unfold HasLinkedIPv4; rewrite HR, H4; reflexivity. }
  destruct (GetLinkedIPv4_total a HL) as [v Hv].
  rewrite (GetGroup_linked Interpret a v HL Hv).
  unfold GetLinkedIPv4 in Hv; rewrite H4 in Hv; cbn [orb] in Hv.
  destruct Hwf as [Hlen Hall].
  destruct a as [net l sc]; cbn [ip] in *.
  do 16 (destruct l as [| ? l]; [discriminate Hlen |]).
  destruct l; [| discriminate Hlen].
  repeat (apply Forall_cons_iff in Hall; destruct Hall as [? Hall]).
  cbn [skipn] in Hv.
  match type of Hv with
  | Some (ReadBE32 [?x0; ?x1; ?x2; ?x3]) = _ =>
      destruct (ReadBE32_be_value x0 x1 x2 x3 []) as [E _]; try assumption;
      destruct (be_value_top_octets x0 x1 x2 x3) as [E0 E1]; try assumption;
      rewrite E in Hv
  end.
  injection Hv as <-.
  rewrite E0, E1; reflexivity.
Qed.

(* ================================================================== *)
(** * Construction from a raw buffer *)
(* ================================================================== *)

(** Comparing a buffer against a whole constant decides the prefix. *)
Lemma memcmp_has_prefix (p : list Z) : forall buf : list Z,
  (length p <= length buf)%nat ->
  (memcmp buf p (length p) = 0 <-> has_prefix p buf).
Proof.
  induction p as [| x p IH]; intros buf Hlen.
  - simpl; split; [intros _; exists buf; reflexivity | reflexivity].
  - destruct buf as [| y buf]; [simpl in Hlen; lia |].
    simpl in Hlen; assert (Hlen' : (length p <= length buf)%nat) by lia.
    specialize (IH buf Hlen').
    simpl memcmp.
    destruct (y <? x) eqn:E1; [| destruct (x <? y) eqn:E2].
    + split; [discriminate |].
      intros [rest H]; injection H as -> _.
      rewrite Z.ltb_irrefl in E1; discriminate E1.
    + split; [discriminate |].
      intros [rest H]; injection H as -> _.
      rewrite Z.ltb_irrefl in E2; discriminate E2.
    + apply Z.ltb_ge in E1, E2.
      assert (y = x) by lia; subst y.
      rewrite IH; split.
      * intros [rest ->]; exists rest; reflexivity.
      * intros [rest H]; injection H as ->; exists rest; reflexivity.
Qed.

Lemma memcmp_eqb_has_prefix (p buf : list Z) (n : nat) :
  n = length p -> (n <= length buf)%nat ->
  ((memcmp buf p n =? 0) = true <-> has_prefix p buf).
Proof.
  intros -> Hlen; rewrite Z.eqb_eq; apply memcmp_has_prefix; exact Hlen.
Qed.

(** C8: constructing from a raw 16-byte buffer stores the sixteen bytes
    unchanged and derives the family by testing, in this order, the 12-byte
    IPv4-mapped prefix, the 6-byte onion prefix FD 87 D8 7E EB 43 and the
    6-byte internal prefix FD 6B 88 C0 87 24, IPv6 being the default. *)
Theorem SetLegacyIPv6_family (a : CNetAddr) (ipv6 : list Z) :
  length ipv6 = 16%nat ->
  ip (SetLegacyIPv6 a ipv6) = ipv6 /\
  (has_prefix pchIPv4 ipv6 -> m_net (SetLegacyIPv6 a ipv6) = NET_IPV4) /\
  (~ has_prefix pchIPv4 ipv6 ->
     has_prefix pchOnionCat ipv6 ->
     m_net (SetLegacyIPv6 a ipv6) = NET_ONION) /\
  (~ has_prefix pchIPv4 ipv6 ->
     ~ has_prefix pchOnionCat ipv6 ->
     has_prefix g_internal_prefix ipv6 ->
     m_net (SetLegacyIPv6 a ipv6) = NET_INTERNAL) /\
  (~ has_prefix pchIPv4 ipv6 ->
     ~ has_prefix pchOnionCat ipv6 ->
     ~ has_prefix g_internal_prefix ipv6 ->
     m_net (SetLegacyIPv6 a ipv6) = NET_IPV6).
Proof.
  intros Hlen.
  pose proof (memcmp_eqb_has_prefix pchIPv4 ipv6 12 eq_refl
                ltac:(rewrite Hlen; lia)) as H4.
  pose proof (memcmp_eqb_has_prefix pchOnionCat ipv6 6 eq_refl
                ltac:(rewrite Hlen; lia)) as HO.
  pose proof (memcmp_eqb_has_prefix g_internal_prefix ipv6 6 eq_refl
                ltac:(rewrite Hlen; lia)) as HI.
  split.
  { unfold SetLegacyIPv6; cbn [ip]; apply firstn_all2; lia. }
  unfold SetLegacyIPv6; cbn [m_net].
  destruct (memcmp ipv6 pchIPv4 12 =? 0);
    destruct (memcmp ipv6 pchOnionCat 6 =? 0);
    destruct (memcmp ipv6 g_internal_prefix 6 =? 0);
    repeat match goal with
           | |- _ /\ _ => split
           end; intros; try reflexivity;
    repeat match goal with
           | H : true = true <-> _ |- _ => apply proj1 in H; specialize (H eq_refl)
           | H : false = true <-> _ |- _ => apply proj2 in H
           end;
    try contradiction;
    match goal with
    | H : has_prefix ?p _ -> false = true, P : has_prefix ?p _ |- _ =>
        discriminate (H P)
    end.
Qed.

Lemma SetLegacyIPv6_family_witness :
  ip onion = pchOnionCat ++ [1; 2; 3; 4; 5; 6; 7; 8; 9; 10] /\
  m_net onion = NET_ONION.
Proof.
  destruct (SetLegacyIPv6_family addr_zero
              (pchOnionCat ++ [1; 2; 3; 4; 5; 6; 7; 8; 9; 10]) eq_refl)
    as (Hip & _ & HO & _ & _).
  split; [exact Hip |].
  apply HO.
  - intros [rest H]; discriminate H.
  - exists [1; 2; 3; 4; 5; 6; 7; 8; 9; 10]; reflexivity.
Defined.

(** One buffer per family. *)
Example SetLegacyIPv6_families :
  map m_net [public4; onion; internal; public6]
  = [NET_IPV4; NET_ONION; NET_INTERNAL; NET_IPV6] /\
  m_net (ipv6_addr (pchIPv4 ++ [8; 8; 8; 8])) = NET_IPV4.
Proof. split; reflexivity. Qed.

(* ================================================================== *)
(** * Onion names: failure leaves the address alone *)
(* ================================================================== *)

Section StringFacts.

Local Open Scope string_scope.

Lemma length_append (p q : string) :
  String.length (p ++ q) = (String.length p + String.length q)%nat.
Proof. induction p as [| c p IH]; simpl; [reflexivity | rewrite IH; reflexivity]. Qed.

Lemma substring_append_r (p q : string) (n : nat) :
  substring (String.length p) n (p ++ q) = substring 0 n q.
Proof. induction p as [| c p IH]; simpl; [reflexivity | exact IH]. Qed.

Lemma substring_0_length (q : string) : substring 0 (String.length q) q = q.
Proof. induction q as [| c q IH]; simpl; [reflexivity | rewrite IH; reflexivity]. Qed.

Lemma substring_append_l (p q : string) :
  substring 0 (String.length p) (p ++ q) = p.
Proof.
  induction p as [| c p IH]; simpl.
  - destruct q; reflexivity.
  - rewrite IH; reflexivity.
Qed.

Lemma substring_split (s : string) : forall n : nat,
  (n <= String.length s)%nat ->
  s = substring 0 n s ++ substring n (String.length s - n) s.
Proof.
  induction s as [| c s IH]; intros n Hn; simpl in Hn.
  - assert (n = 0%nat) by lia; subst n; reflexivity.
  - destruct n as [| n].
    + simpl; rewrite substring_0_length; reflexivity.
    + simpl; rewrite <- IH by lia; reflexivity.
Qed.

(** The test [strName.size() > 6 && strName.substr(size - 6, 6) == ".onion"]
    holds exactly for a non-empty string followed by [".onion"], and then
    [strName.substr(0, size - 6)] is that string. *)
Lemma onion_suffix_test (s : string) :
  (6 <? String.length s)%nat &&
    (substring (String.length s - 6) 6 s =? ".onion") = true <->
  exists p : string, p <> "" /\ s = p ++ ".onion".
Proof.
  rewrite andb_true_iff, Nat.ltb_lt, String.eqb_eq; split.
  - intros [Hlen Hsuf].
    exists (substring 0 (String.length s - 6) s); split.
    + intros Hp.
      pose proof (substring_split s (String.length s - 6) ltac:(lia)) as Hs.
      rewrite Hp in Hs; simpl in Hs.
      replace (String.length s - (String.length s - 6))%nat with 6%nat
        in Hs by lia.
      rewrite Hsuf in Hs; rewrite Hs in Hlen; simpl in Hlen; lia.
    + pose proof (substring_split s (String.length s - 6) ltac:(lia)) as Hs.
      replace (String.length s - (String.length s - 6))%nat with 6%nat
        in Hs by lia.
      rewrite Hsuf in Hs; exact Hs.
  - intros (p & Hp & ->).
    rewrite length_append; simpl String.length; split.
    + destruct p; [contradiction Hp; reflexivity | simpl; lia].
    + replace (String.length p + 6 - 6)%nat with (String.length p) by lia.
      rewrite substring_append_r; reflexivity.
Qed.

Lemma onion_prefix (p : string) :
  substring 0 (String.length (p ++ ".onion") - 6) (p ++ ".onion") = p.
Proof.
  rewrite length_append; simpl String.length.
  replace (String.length p + 6 - 6)%nat with (String.length p) by lia.
  apply substring_append_l.
Qed.

End StringFacts.

(** C9: [SetSpecial] returns [false] exactly when the name is not a
    non-empty string followed by [".onion"], or when the base-32 decoding of
    the part before [".onion"] is not 10 bytes long; and whenever it returns
    [false] the address (family tag, the sixteen bytes, and the scope) is
    what it was before the call. *)
Theorem SetSpecial_failure_atomic
  (DecodeBase32 : string -> list Z) (a : CNetAddr) (strName : string) :
  (fst (SetSpecial DecodeBase32 a strName) = false <->
     (~ exists p : string, p <> ""%string /\ strName = (p ++ ".onion")%string) \/
     (exists p : string,
         p <> ""%string /\ strName = (p ++ ".onion")%string /\
         length (DecodeBase32 (c_str p)) <> 10%nat)) /\
  (fst (SetSpecial DecodeBase32 a strName) = false ->
     snd (SetSpecial DecodeBase32 a strName) = a /\
     m_net (snd (SetSpecial DecodeBase32 a strName)) = m_net a /\
     ip (snd (SetSpecial DecodeBase32 a strName)) = ip a).
Proof.
  pose proof (onion_suffix_test strName) as Htest.
  unfold SetSpecial.
  destruct ((6 <? String.length strName)%nat &&
            (substring (String.length strName - 6) 6 strName =? ".onion")%string)
    eqn:E.
  - destruct (proj1 Htest eq_refl) as (p & Hp & Hs).
    subst strName; rewrite onion_prefix.
    change (16 - 6)%nat with 10%nat.
    destruct (length (DecodeBase32 (c_str p)) =? 10)%nat eqn:E10;
      cbn [negb fst snd].
    + apply Nat.eqb_eq in E10.
      split; [| discriminate].
      split; [discriminate |].
      intros [Hno | (q & Hq & Hs & Hlen)].
      * exfalso; apply Hno; exists p; split; [exact Hp | reflexivity].
      * assert (q = p).
        { rewrite <- (onion_prefix q), <- Hs; apply onion_prefix. }
        subst q; contradiction.
    + apply Nat.eqb_neq in E10.
      split; [| intros _; repeat split; reflexivity].
      split; [| reflexivity].
      intros _; right; exists p; repeat split; assumption.
  - cbn [fst snd].
    split; [| intros _; repeat split; reflexivity].
    split; [| reflexivity].
    intros _; left; intros Hex.
    apply Htest in Hex; discriminate Hex.
Qed.

Lemma SetSpecial_failure_atomic_witness :
  fst (SetSpecial (fun _ => [1; 2; 3]) public4 "abc.onion") = false /\
  snd (SetSpecial (fun _ => [1; 2; 3]) public4 "abc.onion") = public4.
Proof.
  destruct (SetSpecial_failure_atomic (fun _ => [1; 2; 3]) public4 "abc.onion")
    as [Hiff Hsame].
  assert (Hf : fst (SetSpecial (fun _ => [1; 2; 3]) public4 "abc.onion") = false).
  { apply Hiff; right; exists "abc"%string.
    split; [discriminate |]; split; [reflexivity | discriminate]. }
  split; [exact Hf | apply Hsame; exact Hf].
Defined.

(** A name without the suffix fails, a well-formed one succeeds and
    overwrites family and bytes. *)
Example SetSpecial_cases :
  SetSpecial (fun _ => repeat 7 10) public4 "example.com" = (false, public4) /\
  SetSpecial (fun _ => repeat 7 10) public4 ".onion" = (false, public4) /\
  SetSpecial (fun _ => repeat 7 10) public4 "abc.onion" =
    (true, {| m_net := NET_ONION;
              ip := pchOnionCat ++ repeat 7 10;
              scopeId := 0 |}).
Proof. repeat split. Qed.

(* ================================================================== *)
(** * Netmasks *)
(* ================================================================== *)

(** A property checked on the 256 bytes holds of every byte. *)
Lemma forall_uint8 (P : Z -> bool) :
  forallb P (map Z.of_nat (seq 0 256)) = true ->
  forall b : Z, is_uint8 b -> P b = true.
Proof.
  intros H b Hb; rewrite forallb_forall in H; apply H.
  apply in_map_iff; exists (Z.to_nat b); split.
  - apply Z2Nat.id; unfold is_uint8 in Hb; lia.
  - apply in_seq; unfold is_uint8 in Hb; lia.
Qed.

Lemma mask_byte_ok_all (b : Z) : is_uint8 b -> mask_byte_ok b = true.
Proof. apply forall_uint8; vm_compute; reflexivity. Qed.

(** Every byte is either no netmask byte, and then has a one-bit after a
    zero-bit, or is [k] one-bits followed by zero-bits with
    [NetmaskBits b = k]. *)
Lemma mask_byte_cases (b : Z) :
  is_uint8 b ->
  (NetmaskBits b = -1 /\ ones_then_zeros (byte_bits b) = false) \/
  (exists k : nat,
      (k <= 8)%nat /\ NetmaskBits b = Z.of_nat k /\
      byte_bits b = repeat true k ++ repeat false (8 - k)).
Proof.
  intros Hb; pose proof (mask_byte_ok_all b Hb) as H.
  unfold mask_byte_ok in H.
  destruct (NetmaskBits b =? -1) eqn:E.
  - left; split; [apply Z.eqb_eq; exact E | apply negb_true_iff; exact H].
  - right; exists (Z.to_nat (NetmaskBits b)).
    destruct (list_eq_dec bool_dec _ _) as [Heq | _]; [| discriminate H].
    apply andb_prop in H; destruct H as [H0 H8].
    apply Z.leb_le in H0, H8.
    split; [lia |]; split; [lia | exact Heq].
Qed.

Lemma ones_then_zeros_ones (k : nat) (l : list bool) :
  ones_then_zeros (repeat true k ++ l) = ones_then_zeros l.
Proof. induction k as [| k IH]; simpl; [reflexivity | exact IH]. Qed.

Lemma all_zero_zeros (m : nat) (l : list bool) :
  forallb negb (repeat false m ++ l) = forallb negb l.
Proof. induction m as [| m IH]; simpl; [reflexivity | exact IH]. Qed.

Lemma ones_then_zeros_zeros (m : nat) (l : list bool) :
  (0 < m)%nat -> ones_then_zeros (repeat false m ++ l) = forallb negb l.
Proof.
  destruct m as [| m]; [lia |]; intros _; simpl; apply all_zero_zeros.
Qed.

Lemma ones_then_zeros_false_app (l r : list bool) :
  ones_then_zeros l = false ->
  ones_then_zeros (l ++ r) = false /\ forallb negb (l ++ r) = false.
Proof.
  induction l as [| [|] l IH]; simpl; intros H.
  - discriminate H.
  - split; [apply IH; exact H | reflexivity].
  - rewrite forallb_app, H; simpl; split; reflexivity.
Qed.

Lemma all_zero_ones (k : nat) (l : list bool) :
  (0 < k)%nat -> forallb negb (repeat true k ++ l) = false.
Proof. destruct k as [| k]; [lia |]; reflexivity. Qed.

(** The decided and the stated form of a netmask agree. *)
Lemma ones_then_zeros_contiguous (bits : list bool) :
  ones_then_zeros bits = true <-> mask_contiguous bits.
Proof.
  unfold mask_contiguous; induction bits as [| [|] bits IH]; simpl.
  - split; [intros _; exists 0%nat; reflexivity | reflexivity].
  - rewrite IH; split.
    + intros [k Hk]; exists (S k); simpl; rewrite <- Hk; reflexivity.
    + intros [[| k] Hk]; simpl in Hk; [discriminate Hk |].
      injection Hk as Hk; exists k; exact Hk.
  - split.
    + intros H; exists 0%nat; simpl; f_equal.
      clear IH; induction bits as [| [|] bits IH]; simpl in *;
        [reflexivity | discriminate H | f_equal; apply IH; exact H].
    + intros [[| k] Hk]; simpl in Hk; [| discriminate Hk].
      injection Hk as Hk; rewrite Hk.
      clear; induction (length bits); simpl; auto.
Qed.

Lemma skipn_nth_cons (l : list Z) (s : nat) :
  (s < length l)%nat -> skipn s l = nth s l 0 :: skipn (S s) l.
Proof.
  revert s; induction l as [| x l IH]; intros s Hs; simpl in Hs; [lia |].
  destruct s as [| s]; [reflexivity |].
  simpl; apply IH; lia.
Qed.

(** The validation loop decides whether the scanned bytes are a netmask;
    with [zeros_found] set, whether they are all zero. *)
Lemma mask_scan_spec (mask_ip : list Z) :
  Forall is_uint8 mask_ip ->
  forall (n s : nat) (zeros_found : bool),
    (s + n)%nat = length mask_ip ->
    mask_scan (seq s n) mask_ip zeros_found =
      if zeros_found
      then forallb negb (bits_of_bytes (skipn s mask_ip))
      else ones_then_zeros (bits_of_bytes (skipn s mask_ip)).
Proof.
  intros Hall; induction n as [| n IH]; intros s z Hlen.
  - rewrite skipn_all2 by lia; destruct z; reflexivity.
  - rewrite (skipn_nth_cons mask_ip s) by lia.
    assert (Hb : is_uint8 (nth s mask_ip 0)).
    { rewrite Forall_forall in Hall; apply Hall, nth_In; lia. }
    unfold bits_of_bytes; cbn [map concat seq mask_scan].
    fold (bits_of_bytes (skipn (S s) mask_ip)).
    set (R := bits_of_bytes (skipn (S s) mask_ip)).
    assert (IHt := IH (S s) true ltac:(lia)).
    assert (IHf := IH (S s) false ltac:(lia)).
    cbv iota in IHt, IHf; fold R in IHt, IHf.
    destruct (mask_byte_cases _ Hb) as [[Hn Hbad] | (k & Hk & Hn & Hbits)].
    + rewrite Hn; cbn [Z.eqb Pos.eqb orb].
      destruct (ones_then_zeros_false_app _ R Hbad) as [-> ->].
      destruct z; reflexivity.
    + rewrite Hn, Hbits, <- app_assoc.
      replace (Z.of_nat k =? -1) with false by (symmetry; apply Z.eqb_neq; lia).
      cbn [orb].
      rewrite ones_then_zeros_ones.
      destruct (Nat.eq_dec k 0) as [-> | Hk0];
        [| destruct (Nat.eq_dec k 8) as [-> | Hk8]].
      * change (Z.of_nat 0 =? 0) with true.
        change (Z.of_nat 0 <? 8) with true.
        change (repeat true 0 ++ repeat false (8 - 0) ++ R)
          with (repeat false 8 ++ R).
        cbn [negb]; rewrite andb_false_r, IHt.
        rewrite ones_then_zeros_zeros, all_zero_zeros by lia.
        destruct z; reflexivity.
      * change (Z.of_nat 8 =? 0) with false.
        change (Z.of_nat 8 <? 8) with false.
        change (repeat false (8 - 8) ++ R) with R.
        rewrite all_zero_ones by lia.
        destruct z; [reflexivity | exact IHf].
      * replace (Z.of_nat k =? 0) with false by (symmetry; apply Z.eqb_neq; lia).
        replace (Z.of_nat k <? 8) with true by (symmetry; apply Z.ltb_lt; lia).
        rewrite all_zero_ones, ones_then_zeros_zeros by lia.
        destruct z; [reflexivity | exact IHt].
Qed.

(** The explicit-mask constructor accepts exactly the netmasks, read from
    the offset of the mask's own family. *)
Lemma CSubNet_mask_valid (storage : list Z) (addr mask : CNetAddr) :
  wf_addr mask ->
  valid (CSubNet_mask storage addr mask) =
    ones_then_zeros
      (bits_of_bytes (skipn (if IsIPv4 mask then 12 else 0) (ip mask))).
Proof.
  intros [Hlen Hall]; unfold CSubNet_mask.
  destruct (IsIPv4 mask).
  - rewrite (mask_scan_spec (ip mask) Hall (16 - 12) 12 false)
      by (rewrite Hlen; reflexivity).
    destruct (ones_then_zeros _); reflexivity.
  - rewrite (mask_scan_spec (ip mask) Hall (16 - 0) 0 false)
      by (rewrite Hlen; reflexivity).
    destruct (ones_then_zeros _); reflexivity.
Qed.

Lemma Match_invalid (s : CSubNet) (candidate : CNetAddr) :
  valid s = false -> Match s candidate = false.
Proof. intros H; unfold Match; rewrite H; reflexivity. Qed.

Lemma Match_true_inv (s : CSubNet) (candidate : CNetAddr) :
  Match s candidate = true ->
  valid s = true /\
  IsValid candidate = true /\
  m_net (network s) = m_net candidate /\
  forall i : nat, (i < 16)%nat ->
    Z.land (nth i (ip candidate) 0) (nth i (netmask s) 0)
    = nth i (ip (network s)) 0.
Proof.
  unfold Match.
  destruct (valid s); [| discriminate].
  destruct (IsValid candidate); [| discriminate].
  destruct (Network_eqb (m_net (network s)) (m_net candidate)) eqn:E;
    [| discriminate].
  cbn [negb orb]; intros H.
  repeat split; [apply Network_eqb_eq; exact E |].
  intros i Hi; rewrite forallb_forall in H.
  apply Z.eqb_eq, H, in_seq; lia.
Qed.

(** C7, as the code has it: a subnet built from a prefix length out of
    range is invalid; a subnet built from an explicit mask is invalid when
    the mask bytes, from the offset of the mask's own family (12 for an
    IPv4-family mask, 0 otherwise) on, are not one-bits followed by
    zero-bits, which is the byte range of the subnet's address whenever mask
    and address are both IPv4-family or both not; an invalid subnet matches
    no address; and [Match] returns [true] only for a valid subnet, a valid
    candidate of the same family, with
    [candidate.ip[i] & netmask[i] == network.ip[i]] at each of the sixteen
    bytes. *)
Theorem CSubNet_invalid_never_matches :
  (forall (addr : CNetAddr) (n : Z),
      n < 0 \/ n > 128 - (if IsIPv4 addr then 12 else 0) * 8 ->
      valid (CSubNet_cidr addr n) = false) /\
  (forall (storage : list Z) (addr mask : CNetAddr),
      wf_addr mask ->
      ~ mask_contiguous
          (bits_of_bytes (skipn (if IsIPv4 mask then 12 else 0) (ip mask))) ->
      valid (CSubNet_mask storage addr mask) = false) /\
  (forall (storage : list Z) (addr mask : CNetAddr),
      wf_addr mask ->
      IsIPv4 mask = IsIPv4 addr ->
      ~ mask_contiguous
          (bits_of_bytes (skipn (if IsIPv4 addr then 12 else 0) (ip mask))) ->
      valid (CSubNet_mask storage addr mask) = false) /\
  (forall (s : CSubNet) (candidate : CNetAddr),
      valid s = false -> Match s candidate = false) /\
  (forall (s : CSubNet) (candidate : CNetAddr),
      Match s candidate = true ->
      valid s = true /\
      IsValid candidate = true /\
      m_net (network s) = m_net candidate /\
      forall i : nat, (i < 16)%nat ->
        Z.land (nth i (ip candidate) 0) (nth i (netmask s) 0)
        = nth i (ip (network s)) 0).
Proof.
  assert (Hmask : forall (storage : list Z) (addr mask : CNetAddr),
             wf_addr mask ->
             ~ mask_contiguous
                 (bits_of_bytes
                    (skipn (if IsIPv4 mask then 12 else 0) (ip mask))) ->
             valid (CSubNet_mask storage addr mask) = false).
  { intros storage addr mask Hwf Hnot.
    rewrite (CSubNet_mask_valid storage addr mask Hwf).
    apply not_true_is_false; intros H; apply Hnot.
    apply ones_then_zeros_contiguous; exact H. }
  split; [| split; [| split; [| split]]].
  - intros addr n Hn; unfold CSubNet_cidr.
    destruct (IsIPv4 addr);
      (replace ((0 <=? n) && (n <=? _)) with false; [reflexivity |]);
      symmetry; apply andb_false_iff; rewrite Z.leb_gt, Z.leb_gt; lia.
  - exact Hmask.
  - intros storage addr mask Hwf Hfam Hnot.
    apply Hmask; [exact Hwf | rewrite Hfam; exact Hnot].
  - exact Match_invalid.
  - exact Match_true_inv.
Qed.

Lemma CSubNet_invalid_never_matches_witness :
  valid (CSubNet_cidr public4 33) = false /\
  valid (CSubNet_mask [] public4 mask_f0_0f) = false /\
  Match (CSubNet_mask [] public4 mask_f0_0f) public4 = false /\
  Z.land (nth 15 (ip (ipv4_addr 192 168 1 255)) 0)
         (nth 15 (netmask (CSubNet_cidr (ipv4_addr 192 168 1 77) 24)) 0)
  = nth 15 (ip (network (CSubNet_cidr (ipv4_addr 192 168 1 77) 24))) 0.
Proof.
  destruct CSubNet_invalid_never_matches
    as (Hcidr & _ & Hmask & Hinv & Htrue).
  assert (Hbad : valid (CSubNet_mask [] public4 mask_f0_0f) = false).
  { apply Hmask; [apply wf_bytesb_correct; reflexivity | reflexivity |].
    intros H; apply ones_then_zeros_contiguous in H; discriminate H. }
  split; [apply Hcidr; right; simpl; lia |].
  split; [exact Hbad |].
  split; [apply Hinv; exact Hbad |].
  apply (Htrue (CSubNet_cidr (ipv4_addr 192 168 1 77) 24)
               (ipv4_addr 192 168 1 255)); [reflexivity | lia].
Defined.

(** C7 as stated fails when the range is that of the subnet's address: on
    the IPv6 address 2a00:1450::1 the mask 255.255.0.0, an IPv4-family
    address, is validated on its bytes 12..15 only and copied whole, so the
    subnet is valid although the sixteen mask bytes, and the stored netmask
    00 .. 00 FF FF FF FF 00 00, are not one-bits followed by zero-bits. *)
Lemma CSubNet_mask_mixed_family_accepted :
  IsIPv4 public6 = false /\
  wf_addr mask4_slash16 /\
  ~ mask_contiguous
      (bits_of_bytes (skipn (if IsIPv4 public6 then 12 else 0)
                            (ip mask4_slash16))) /\
  valid (CSubNet_mask [] public6 mask4_slash16) = true /\
  netmask (CSubNet_mask [] public6 mask4_slash16)
  = [0; 0; 0; 0; 0; 0; 0; 0; 0; 0; 0xFF; 0xFF; 0xFF; 0xFF; 0; 0] /\
  ~ mask_contiguous
      (bits_of_bytes (netmask (CSubNet_mask [] public6 mask4_slash16))).
Proof.
  split; [reflexivity |].
  split; [apply wf_bytesb_correct; reflexivity |].
  split; [intros H; apply ones_then_zeros_contiguous in H; discriminate H |].
  split; [reflexivity |].
  split; [reflexivity |].
  intros H; apply ones_then_zeros_contiguous in H; discriminate H.
Qed.

(** The cases of the specification: 192.168.1.0/24, and the mask bytes
    F0 0F. *)
Example CSubNet_cases :
  Match (CSubNet_cidr (ipv4_addr 192 168 1 0) 24) (ipv4_addr 192 168 1 255)
  = true /\
  Match (CSubNet_cidr (ipv4_addr 192 168 1 0) 24) (ipv4_addr 192 168 2 1)
  = false /\
  valid (CSubNet_mask [] (ipv4_addr 192 168 1 0) mask_f0_0f) = false /\
  valid (CSubNet_cidr (ipv4_addr 192 168 1 0) (-1)) = false /\
  valid (CSubNet_cidr public6 129) = false /\
  valid (CSubNet_cidr public6 128) = true.
Proof. repeat split. Qed.

(* ================================================================== *)
(** * Explicit masks on IPv4 networks *)
(* ================================================================== *)

(** Scanning bytes 12..15 reads those four bytes only. *)
Lemma mask_scan_low_bytes (l1 l2 : list Z) (zeros_found : bool) :
  (forall i : nat, (12 <= i < 16)%nat -> nth i l1 0 = nth i l2 0) ->
  mask_scan (seq 12 (16 - 12)) l1 zeros_found
  = mask_scan (seq 12 (16 - 12)) l2 zeros_found.
Proof.
  intros H; cbn [Nat.sub seq mask_scan].
  rewrite !(H 12%nat), !(H 13%nat), !(H 14%nat), !(H 15%nat) by lia.
  reflexivity.
Qed.

(** On an IPv4 network the stored netmask is twelve bytes FF and bytes
    12..15 of the mask. *)
Lemma CSubNet_mask_ipv4_netmask (storage : list Z) (addr mask : CNetAddr) :
  IsIPv4 addr = true ->
  valid (CSubNet_mask storage addr mask) = true ->
  netmask (CSubNet_mask storage addr mask)
  = repeat 0xFF 12 ++ [nth 12 (ip mask) 0; nth 13 (ip mask) 0;
                       nth 14 (ip mask) 0; nth 15 (ip mask) 0] /\
  network (CSubNet_mask storage addr mask)
  = set_ip addr (normalize (ip addr)
                   (netmask (CSubNet_mask storage addr mask))).
Proof.
  intros H4; unfold CSubNet_mask; rewrite H4.
  destruct (negb (mask_scan _ (ip mask) false)); cbn [valid netmask network];
    [discriminate |].
  intros _; split; reflexivity.
Qed.

(** C10, as the code has it: on an IPv4-family network, two masks that
    agree on bytes 12..15 give subnets with the same validity and the same
    network when both masks are IPv4-family; and masks of any family give
    the same stored netmask (FF in bytes 0..11, mask bytes 12..15 after
    them) and the same normalized network whenever both subnets are valid.  Bytes 0..11 of a mask are never
    copied, but they are validated when the mask is not IPv4-family. *)
Theorem CSubNet_mask_ipv4_low_bytes
  (storage1 storage2 : list Z) (addr mask1 mask2 : CNetAddr) :
  IsIPv4 addr = true ->
  (forall i : nat, (12 <= i < 16)%nat ->
     nth i (ip mask1) 0 = nth i (ip mask2) 0) ->
  (IsIPv4 mask1 = true -> IsIPv4 mask2 = true ->
     valid (CSubNet_mask storage1 addr mask1)
     = valid (CSubNet_mask storage2 addr mask2) /\
     network (CSubNet_mask storage1 addr mask1)
     = network (CSubNet_mask storage2 addr mask2)) /\
  (valid (CSubNet_mask storage1 addr mask1) = true ->
   valid (CSubNet_mask storage2 addr mask2) = true ->
     netmask (CSubNet_mask storage1 addr mask1)
     = netmask (CSubNet_mask storage2 addr mask2) /\
     firstn 12 (netmask (CSubNet_mask storage1 addr mask1)) = repeat 0xFF 12 /\
     network (CSubNet_mask storage1 addr mask1)
     = network (CSubNet_mask storage2 addr mask2) /\
     skipn 12 (netmask (CSubNet_mask storage1 addr mask1))
     = [nth 12 (ip mask1) 0; nth 13 (ip mask1) 0;
        nth 14 (ip mask1) 0; nth 15 (ip mask1) 0]).
Proof.
  intros H4 Hlow.
  assert (Hvalid : valid (CSubNet_mask storage1 addr mask1) = true ->
                   valid (CSubNet_mask storage2 addr mask2) = true ->
                   netmask (CSubNet_mask storage1 addr mask1)
                   = netmask (CSubNet_mask storage2 addr mask2) /\
                   firstn 12 (netmask (CSubNet_mask storage1 addr mask1))
                   = repeat 0xFF 12 /\
                   network (CSubNet_mask storage1 addr mask1)
                   = network (CSubNet_mask storage2 addr mask2) /\
                   skipn 12 (netmask (CSubNet_mask storage1 addr mask1))
                   = [nth 12 (ip mask1) 0; nth 13 (ip mask1) 0;
                      nth 14 (ip mask1) 0; nth 15 (ip mask1) 0]).
  { intros V1 V2.
    destruct (CSubNet_mask_ipv4_netmask storage1 addr mask1 H4 V1) as [N1 W1].
    destruct (CSubNet_mask_ipv4_netmask storage2 addr mask2 H4 V2) as [N2 W2].
    assert (E : netmask (CSubNet_mask storage1 addr mask1)
                = netmask (CSubNet_mask storage2 addr mask2)).
    { rewrite N1, N2.
      rewrite !(Hlow 12%nat), !(Hlow 13%nat), !(Hlow 14%nat), !(Hlow 15%nat)
        by lia.
      reflexivity. }
    split; [exact E |]; split; [rewrite N1; reflexivity |].
    split; [rewrite W1, W2, E; reflexivity | rewrite N1; reflexivity]. }
  split; [| exact Hvalid].
  intros M1 M2.
  assert (EV : valid (CSubNet_mask storage1 addr mask1)
               = valid (CSubNet_mask storage2 addr mask2)).
  { unfold CSubNet_mask; rewrite M1, M2.
    rewrite (mask_scan_low_bytes (ip mask1) (ip mask2) false Hlow).
    destruct (negb (mask_scan _ (ip mask2) false)); reflexivity. }
  split; [exact EV |].
  destruct (valid (CSubNet_mask storage2 addr mask2)) eqn:V2.
  - apply Hvalid; [exact EV | reflexivity].
  - clear Hvalid; revert EV V2; unfold CSubNet_mask.
    destruct (negb (mask_scan _ (ip mask1) false));
      destruct (negb (mask_scan _ (ip mask2) false));
      cbn [valid network]; intros; try discriminate; reflexivity.
Qed.

Lemma CSubNet_mask_ipv4_low_bytes_witness :
  valid (CSubNet_mask [] private4 mask4_slash16)
  = valid (CSubNet_mask [1; 2; 3] private4 (ipv4_addr 255 255 0 0)) /\
  netmask (CSubNet_mask [] private4 mask4_slash16)
  = netmask (CSubNet_mask [1; 2; 3] private4
               (ipv6_addr (repeat 255 14 ++ [0; 0]))).
Proof.
  split.
  - apply (CSubNet_mask_ipv4_low_bytes [] [1; 2; 3] private4 mask4_slash16
             (ipv4_addr 255 255 0 0) eq_refl);
      [intros i Hi; reflexivity | reflexivity | reflexivity].
  - apply (CSubNet_mask_ipv4_low_bytes [] [1; 2; 3] private4 mask4_slash16
             (ipv6_addr (repeat 255 14 ++ [0; 0])) eq_refl).
    + intros i Hi.
      assert (Hc : i = 12%nat \/ i = 13%nat \/ i = 14%nat \/ i = 15%nat) by lia.
      destruct Hc as [-> | [-> | [-> | ->]]]; reflexivity.
    + reflexivity.
    + reflexivity.
Defined.

(** C10 as stated fails: on the IPv4 network 10.0.0.1, the masks
    255.255.0.0 (IPv4-family) and ::ffff:0 (IPv6-family) agree on bytes
    12..15, yet the first gives a valid subnet and the second an invalid
    one, because the IPv6-family mask is validated from byte 0. *)
Lemma CSubNet_mask_high_bytes_validated :
  IsIPv4 private4 = true /\
  skipn 12 (ip mask4_slash16) = skipn 12 (ip mask6_low16) /\
  valid (CSubNet_mask [] private4 mask4_slash16) = true /\
  valid (CSubNet_mask [] private4 mask6_low16) = false /\
  valid (CSubNet_mask [] private4 mask4_slash16)
  <> valid (CSubNet_mask [] private4 mask6_low16).
Proof.
  split; [reflexivity |]; split; [reflexivity |].
  split; [reflexivity |]; split; [reflexivity | discriminate].
Qed.

(* ================================================================== *)
(** * The byte loop of the group key *)
(* ================================================================== *)

(** With [nBits] units of fuel the loop [while (nBits >= 8)] has run to its
    end: fewer than eight bits are left. *)
Lemma push_whole_bytes_exit (a : CNetAddr) (fuel : nat) :
  forall (vchRet : list Z) (nStartByte nBits : Z),
    (Z.to_nat nBits <= fuel)%nat ->
    snd (push_whole_bytes fuel a vchRet nStartByte nBits) < 8.
Proof.
  induction fuel as [| fuel IH]; intros v s n Hfuel; simpl.
  - lia.
  - destruct (8 <=? n) eqn:E.
    + apply IH; apply Z.leb_le in E; lia.
    + apply Z.leb_gt in E; exact E.
Qed.

(* ================================================================== *)
(** * Group keys by class *)
(* ================================================================== *)

Lemma push_prefix_none (a : CNetAddr) (v : list Z) (s : Z) :
  push_prefix a v s 0 = v.
Proof. reflexivity. Qed.

Lemma push_prefix_nibble (a : CNetAddr) (v : list Z) (s : Z) :
  push_prefix a v s 4 = v ++ [u8 (Z.lor (GetByte a (15 - s)) 0x0F)].
Proof. reflexivity. Qed.

Lemma push_prefix_32 (a : CNetAddr) (c : Z) :
  push_prefix a [c] 0 32
  = [c; u8 (nth 0 (ip a) 0); u8 (nth 1 (ip a) 0); u8 (nth 2 (ip a) 0);
     u8 (nth 3 (ip a) 0)].
Proof. reflexivity. Qed.

Lemma push_prefix_36 (a : CNetAddr) (c : Z) :
  push_prefix a [c] 0 36
  = [c; u8 (nth 0 (ip a) 0); u8 (nth 1 (ip a) 0); u8 (nth 2 (ip a) 0);
     u8 (nth 3 (ip a) 0); u8 (Z.lor (nth 4 (ip a) 0) 0x0F)].
Proof. reflexivity. Qed.

Lemma push_prefix_80 (a : CNetAddr) (c : Z) :
  push_prefix a [c] 6 80
  = c :: map (fun i => u8 (nth i (ip a) 0)) (seq 6 10).
Proof. reflexivity. Qed.

Lemma u8_small (b : Z) : is_uint8 b -> u8 b = b.
Proof. unfold is_uint8, u8; intros H; apply Z.mod_small; exact H. Qed.

Lemma lor_nibble_uint8 (b : Z) : is_uint8 b -> is_uint8 (Z.lor b 0x0F).
Proof.
  intros Hb.
  assert (H : ((0 <=? Z.lor b 0x0F) && (Z.lor b 0x0F <? 256)) = true).
  { revert b Hb; apply forall_uint8; vm_compute; reflexivity. }
  apply andb_prop in H; unfold is_uint8; lia.
Qed.

Lemma wf_addr_nth (a : CNetAddr) (i : nat) :
  wf_addr a -> (i < 16)%nat -> is_uint8 (nth i (ip a) 0).
Proof.
  intros [Hlen Hall] Hi; rewrite Forall_forall in Hall.
  apply Hall, nth_In; lia.
Qed.

Lemma wf_bytes_skipn_nth (l : list Z) :
  length l = 16%nat -> skipn 6 l = map (fun i => nth i l 0) (seq 6 10).
Proof.
  intros Hlen.
  do 16 (destruct l as [| ? l]; [discriminate Hlen |]).
  destruct l; [reflexivity | discriminate Hlen].
Qed.

(** An address of the onion family is always routable. *)
Lemma IsTor_facts (a : CNetAddr) :
  IsTor a = true ->
  IsRoutable a = true /\ IsInternal a = false /\ IsLocal a = false /\
  HasLinkedIPv4 a = false /\ GetNetClass a = NET_ONION.
Proof.
  intros H; apply Network_eqb_eq in H.
  unfold GetNetClass, HasLinkedIPv4, IsRoutable, IsValid, IsLocal, IsInternal,
    IsRFC1918, IsRFC2544, IsRFC3927, IsRFC4862, IsRFC6598, IsRFC5737,
    IsRFC4193, IsRFC4843, IsRFC7343, IsRFC3849, IsRFC6145, IsRFC6052,
    IsRFC3964, IsRFC4380, IsTor, IsIPv4, IsIPv6.
  rewrite H; repeat split.
Qed.

Lemma IsInternal_facts (a : CNetAddr) :
  IsInternal a = true ->
  IsValid a = false /\ IsRoutable a = false /\ IsLocal a = false /\
  GetNetClass a = NET_INTERNAL.
Proof.
  intros H; pose proof H as H'; apply Network_eqb_eq in H'.
  unfold GetNetClass, IsRoutable, IsValid, IsLocal,
    IsRFC3849, IsIPv4, IsIPv6.
  rewrite H, H'; repeat split.
Qed.

Section GroupClasses.

Variable Interpret : list bool -> list bool -> Z.

Lemma GetMappedAS_total (asmap : list bool) (a : CNetAddr) :
  exists n : Z, GetMappedAS Interpret asmap a = Some n.
Proof.
  unfold GetMappedAS.
  destruct (_ || _); [eexists; reflexivity |].
  destruct (GetMappedAS_ip_bits_total a) as (bits & -> & _).
  eexists; reflexivity.
Qed.

Lemma GetMappedAS_unmappable (asmap : list bool) (a : CNetAddr) :
  GetNetClass a <> NET_IPV4 -> GetNetClass a <> NET_IPV6 ->
  GetMappedAS Interpret asmap a = Some 0.
Proof.
  intros H4 H6; unfold GetMappedAS.
  apply Z.eqb_neq in H4, H6; rewrite H4, H6, orb_true_r; reflexivity.
Qed.

(** When the AS lookup finds nothing the group is the one computed without
    an AS-map. *)
Lemma GetGroup_unmapped (asmap : list bool) (a : CNetAddr) :
  GetMappedAS Interpret asmap a = Some 0 ->
  GetGroup Interpret asmap a = GetGroup Interpret [] a.
Proof.
  intros HM; unfold GetGroup; rewrite HM.
  replace (GetMappedAS Interpret [] a) with (Some 0) by reflexivity.
  reflexivity.
Qed.

(** The classification chain of [GetGroup], taken without an AS-map, for an
    address that is not linked to IPv4. *)
Lemma GetGroup_chain (a : CNetAddr) :
  HasLinkedIPv4 a = false ->
  GetGroup Interpret [] a =
    Some (if IsLocal a then [GetNetClass a]
          else if IsInternal a then push_prefix a [GetNetClass a] 6 80
          else if negb (IsRoutable a) then [GetNetClass a]
          else if IsTor a then push_prefix a [GetNetClass a] 6 4
          else if IsHeNet a then push_prefix a [GetNetClass a] 0 36
          else push_prefix a [GetNetClass a] 0 32).
Proof.
  intros HL; unfold GetGroup.
  replace (GetMappedAS Interpret [] a) with (Some 0) by reflexivity.
  cbv beta iota delta [obind].
  change (negb (0 =? 0)) with false; cbv iota.
  rewrite HL.
  change ([] ++ [GetNetClass a]) with [GetNetClass a].
  change ((16 - 6) * 8) with 80.
  rewrite !push_prefix_none.
  destruct (IsLocal a), (IsInternal a), (negb (IsRoutable a)), (IsTor a),
    (IsHeNet a); reflexivity.
Qed.

End GroupClasses.

Section GroupKeys.

Variable Interpret : list bool -> list bool -> Z.

Lemma GetGroup_asn_key (asmap : list bool) (a : CNetAddr) (n : Z) :
  GetMappedAS Interpret asmap a = Some n ->
  n <> 0 ->
  GetGroup Interpret asmap a =
    Some [Network_to_Z NET_IPV6; Z.land n 0xFF; Z.land (Z.shiftr n 8) 0xFF;
          Z.land (Z.shiftr n 16) 0xFF; Z.land (Z.shiftr n 24) 0xFF].
Proof.
  intros HM Hn; unfold GetGroup; rewrite HM.
  cbv beta iota delta [obind].
  apply Z.eqb_neq in Hn; rewrite Hn.
  cbv beta iota delta [negb fold_left app].
  rewrite !u8_land_255.
  change (8 * 0) with 0; rewrite Z.shiftr_0_r; reflexivity.
Qed.

(** X1: [GetGroup] never reaches the assertion of [GetLinkedIPv4]: for
    every address and every AS-map it returns a key of 1 to 11 bytes, whose
    first byte is the [NET_IPV6] tag (AS-number keys) or the net class. *)
Theorem GetGroup_total (asmap : list bool) (a : CNetAddr) :
  exists key : list Z,
    GetGroup Interpret asmap a = Some key /\
    (hd 0 key = NET_IPV6 \/ hd 0 key = GetNetClass a) /\
    (1 <= length key <= 11)%nat.
Proof.
  destruct (GetMappedAS_total Interpret asmap a) as [n HM].
  destruct (Z.eq_dec n 0) as [-> | Hn].
  - rewrite (GetGroup_unmapped Interpret asmap a HM).
    destruct (HasLinkedIPv4 a) eqn:HL.
    + destruct (GetLinkedIPv4_total a HL) as [v Hv].
      rewrite (GetGroup_linked Interpret a v HL Hv).
      eexists; split; [reflexivity |]; split; [| simpl; lia].
      right; rewrite (GetNetClass_linked a HL); reflexivity.
    + rewrite (GetGroup_chain Interpret a HL).
      eexists; split; [reflexivity |].
      destruct (IsLocal a), (IsInternal a), (negb (IsRoutable a)), (IsTor a),
        (IsHeNet a);
        rewrite ?push_prefix_80, ?push_prefix_nibble, ?push_prefix_36,
          ?push_prefix_32;
        (split; [right; reflexivity | simpl; lia]).
  - rewrite (GetGroup_asn_key asmap a n HM Hn).
    eexists; split; [reflexivity |]; split; [left; reflexivity | simpl; lia].
Qed.

(** X2: every address that is not routable and not internal (loopback,
    private, link-local, unspecified, ...) has the one-byte group key
    [NET_UNROUTABLE], whatever the AS-map. *)
Theorem GetGroup_unroutable (asmap : list bool) (a : CNetAddr) :
  IsRoutable a = false ->
  IsInternal a = false ->
  GetGroup Interpret asmap a = Some [Network_to_Z NET_UNROUTABLE].
Proof.
  intros HR HI.
  assert (HL : HasLinkedIPv4 a = false) by (unfold HasLinkedIPv4; rewrite HR; reflexivity).
  assert (HC : GetNetClass a = NET_UNROUTABLE)
    by (unfold GetNetClass; rewrite HI, HR; reflexivity).
  rewrite (GetGroup_unmapped Interpret asmap a)
    by (apply GetMappedAS_unmappable; rewrite HC; discriminate).
  rewrite (GetGroup_chain Interpret a HL), HC, HI, HR.
  destruct (IsLocal a); reflexivity.
Qed.

(** X3: an onion-family address is always routable, and its group key is
    the class byte [NET_ONION] followed by stored byte 6 with its low four
    bits set, whatever the AS-map. *)
Theorem GetGroup_tor (asmap : list bool) (a : CNetAddr) :
  wf_addr a ->
  IsTor a = true ->
  IsRoutable a = true /\
  GetGroup Interpret asmap a =
    Some [Network_to_Z NET_ONION; Z.lor (nth 6 (ip a) 0) 0x0F].
Proof.
  intros Hwf HT.
  destruct (IsTor_facts a HT) as (HR & HI & HLoc & HL & HC).
  split; [exact HR |].
  rewrite (GetGroup_unmapped Interpret asmap a)
    by (apply GetMappedAS_unmappable; rewrite HC; discriminate).
  rewrite (GetGroup_chain Interpret a HL), HC, HI, HR, HLoc, HT.
  cbv iota; simpl negb; cbv iota.
  rewrite push_prefix_nibble.
  change (GetByte a (15 - 6)) with (nth 6 (ip a) 0).
  rewrite u8_small by (apply lor_nibble_uint8, wf_addr_nth; [exact Hwf | lia]).
  reflexivity.
Qed.

(** X4: an internal address is keyed by [NET_INTERNAL] and its ten bytes
    after the internal prefix, whatever the AS-map: two internal addresses
    share a group only if those ten bytes are the same. *)
Theorem GetGroup_internal (asmap : list bool) (a b : CNetAddr) :
  wf_addr a ->
  wf_addr b ->
  IsInternal a = true ->
  IsInternal b = true ->
  GetGroup Interpret asmap a
  = Some (Network_to_Z NET_INTERNAL :: skipn 6 (ip a)) /\
  (GetGroup Interpret asmap a = GetGroup Interpret asmap b ->
   skipn 6 (ip a) = skipn 6 (ip b)).
Proof.
  assert (Key : forall c : CNetAddr,
             wf_addr c -> IsInternal c = true ->
             GetGroup Interpret asmap c
             = Some (Network_to_Z NET_INTERNAL :: skipn 6 (ip c))).
  { intros c Hwf HI.
    destruct (IsInternal_facts c HI) as (_ & HR & HLoc & HC).
    assert (HL : HasLinkedIPv4 c = false)
      by (unfold HasLinkedIPv4; rewrite HR; reflexivity).
    rewrite (GetGroup_unmapped Interpret asmap c)
      by (apply GetMappedAS_unmappable; rewrite HC; discriminate).
    rewrite (GetGroup_chain Interpret c HL), HC, HI, HLoc.
    cbv iota; rewrite push_prefix_80.
    rewrite (wf_bytes_skipn_nth (ip c)) by (destruct Hwf; assumption).
    do 2 f_equal; apply map_ext_in; intros i Hi; apply in_seq in Hi.
    apply u8_small, wf_addr_nth; [exact Hwf | lia]. }
  intros Ha Hb HIa HIb.
  rewrite (Key a Ha HIa), (Key b Hb HIb).
  split; [reflexivity |].
  intros H; injection H as H; exact H.
Qed.

(** X5: with no AS-map, a routable IPv6 address with no linked IPv4 address
    is keyed by [NET_IPV6] and its first four bytes (a /32); in the he.net
    range 2001:470::/32 a fifth byte follows, stored byte 4 with its low four
    bits set (a /36). *)
Theorem GetGroup_ipv6 (a : CNetAddr) :
  wf_addr a ->
  IsIPv6 a = true ->
  IsRoutable a = true ->
  HasLinkedIPv4 a = false ->
  GetGroup Interpret [] a =
    Some (Network_to_Z NET_IPV6 :: firstn 4 (ip a) ++
          (if IsHeNet a then [Z.lor (nth 4 (ip a) 0) 0x0F] else [])).
Proof.
  intros Hwf H6 HR HL.
  destruct (IsRoutable_inv a HR) as (_ & HLoc & HI).
  assert (HT : IsTor a = false).
  { unfold IsTor; unfold IsIPv6 in H6; apply Network_eqb_eq in H6.
    rewrite H6; reflexivity. }
  assert (HC : GetNetClass a = NET_IPV6)
    by (unfold GetNetClass; rewrite HI, HR, HL, HT, HLoc; reflexivity).
  rewrite (GetGroup_chain Interpret a HL), HC, HI, HR, HLoc, HT.
  cbv iota; simpl negb; cbv iota.
  assert (F4 : firstn 4 (ip a)
               = [nth 0 (ip a) 0; nth 1 (ip a) 0; nth 2 (ip a) 0;
                  nth 3 (ip a) 0]).
  { destruct Hwf as [Hlen _].
    destruct (ip a) as [| ? [| ? [| ? [| ? ?]]]]; try discriminate Hlen.
    reflexivity. }
  rewrite F4.
  destruct (IsHeNet a);
    rewrite ?push_prefix_36, ?push_prefix_32;
    rewrite !u8_small
      by (try apply lor_nibble_uint8; apply wf_addr_nth; [exact Hwf | lia]);
    reflexivity.
Qed.

(** X6: two addresses that carry the same embedded IPv4 address (plain
    IPv4, 6to4, NAT64, SIIT or Teredo) are looked up under the same 128 bits
    and get the same AS number and the same group key, for every AS-map. *)
Theorem GetGroup_same_linked (asmap : list bool) (a b : CNetAddr) (v : Z) :
  HasLinkedIPv4 a = true ->
  HasLinkedIPv4 b = true ->
  GetLinkedIPv4 a = Some v ->
  GetLinkedIPv4 b = Some v ->
  GetMappedAS_ip_bits a = GetMappedAS_ip_bits b /\
  GetMappedAS Interpret asmap a = GetMappedAS Interpret asmap b /\
  GetGroup Interpret asmap a = GetGroup Interpret asmap b.
Proof.
  intros Ha Hb Hva Hvb.
  assert (Hbits : GetMappedAS_ip_bits a = GetMappedAS_ip_bits b).
  { unfold GetMappedAS_ip_bits; rewrite Ha, Hb, Hva, Hvb; reflexivity. }
  assert (HM : GetMappedAS Interpret asmap a = GetMappedAS Interpret asmap b).
  { unfold GetMappedAS.
    rewrite (GetNetClass_linked a Ha), (GetNetClass_linked b Hb), Hbits.
    reflexivity. }
  split; [exact Hbits |]; split; [exact HM |].
  destruct (GetMappedAS_total Interpret asmap b) as [n Hn].
  destruct (Z.eq_dec n 0) as [-> | Hn0].
  - rewrite (GetGroup_unmapped Interpret asmap a) by (rewrite HM; exact Hn).
    rewrite (GetGroup_unmapped Interpret asmap b Hn).
    rewrite (GetGroup_linked Interpret a v Ha Hva).
    rewrite (GetGroup_linked Interpret b v Hb Hvb).
    reflexivity.
  - rewrite (GetGroup_asn_key asmap a n) by (rewrite ?HM; assumption).
    rewrite (GetGroup_asn_key asmap b n Hn Hn0).
    reflexivity.
Qed.

End GroupKeys.

Lemma GetGroup_unroutable_witness :
  GetGroup (fun _ _ => 7) [true] private4 = Some [0] /\
  GetGroup (fun _ _ => 7) [true] loopback6 = Some [0].
Proof.
  split.
  - apply (GetGroup_unroutable (fun _ _ => 7) [true] private4); reflexivity.
  - apply (GetGroup_unroutable (fun _ _ => 7) [true] loopback6); reflexivity.
Defined.

Lemma GetGroup_tor_witness :
  IsRoutable onion = true /\
  GetGroup (fun _ _ => 7) [true] onion = Some [3; 15].
Proof.
  apply (GetGroup_tor (fun _ _ => 7) [true] onion);
    [apply wf_bytesb_correct; reflexivity | reflexivity].
Defined.

Lemma GetGroup_internal_witness :
  GetGroup (fun _ _ => 7) [true] internal
  = Some [4; 1; 2; 3; 4; 5; 6; 7; 8; 9; 10].
Proof.
  apply (GetGroup_internal (fun _ _ => 7) [true] internal internal);
    try (apply wf_bytesb_correct; reflexivity); reflexivity.
Defined.

Lemma GetGroup_ipv6_witness :
  GetGroup (fun _ _ => 7) [] public6 = Some [2; 0x2a; 0; 0x14; 0x50].
Proof.
  apply (GetGroup_ipv6 (fun _ _ => 7) public6);
    [apply wf_bytesb_correct; reflexivity | reflexivity ..].
Defined.

Lemma GetGroup_same_linked_witness :
  GetMappedAS (fun _ bits => if nth 100 bits false then 7 else 0) [true] teredo
  = GetMappedAS (fun _ bits => if nth 100 bits false then 7 else 0) [true]
      (ipv4_addr 8 8 252 251) /\
  GetGroup (fun _ bits => if nth 100 bits false then 7 else 0) [true] teredo
  = GetGroup (fun _ bits => if nth 100 bits false then 7 else 0) [true]
      (ipv4_addr 8 8 252 251).
Proof.
  apply (GetGroup_same_linked (fun _ bits => if nth 100 bits false then 7 else 0)
           [true] teredo (ipv4_addr 8 8 252 251) 0x0808FCFB);
    reflexivity.
Defined.

(** A he.net address gets the longer key. *)
Example GetGroup_henet :
  GetGroup (fun _ _ => 0) []
    (ipv6_addr [0x20; 0x01; 0x04; 0x70; 0xAB; 9; 3; 4; 5; 6; 7; 8; 1; 2; 3; 4])
  = Some [2; 0x20; 0x01; 0x04; 0x70; 0xAF].
Proof. reflexivity. Qed.

(* ================================================================== *)
(** * Net class, network and reachability *)
(* ================================================================== *)

(** X7: [GetNetClass] returns one of the five class values 0..4, never
    255; and for an address whose family is IPv4, IPv6, onion or internal it
    is [NET_IPV4] when the address has a linked IPv4 address and
    [GetNetwork] otherwise. *)
Theorem GetNetClass_GetNetwork (a : CNetAddr) :
  0 <= GetNetClass a <= 4 /\
  (m_net a <> NET_UNROUTABLE ->
   m_net a <> NET_MAX ->
   GetNetClass a
   = if HasLinkedIPv4 a then Network_to_Z NET_IPV4
     else Network_to_Z (GetNetwork a)).
Proof.
  split.
  - unfold GetNetClass.
    destruct (IsInternal a); [simpl; lia |].
    destruct (IsRoutable a) eqn:HR; [| simpl; lia].
    destruct (IsRoutable_inv a HR) as (_ & -> & _).
    destruct (HasLinkedIPv4 a), (IsTor a); simpl; lia.
  - intros Hu Hm.
    destruct (IsInternal a) eqn:HI.
    + destruct (IsInternal_facts a HI) as (_ & HR & _ & HC).
      unfold HasLinkedIPv4, GetNetwork; rewrite HR, HI, HC; reflexivity.
    + destruct (IsRoutable a) eqn:HR.
      * destruct (IsRoutable_inv a HR) as (_ & HLoc & _).
        unfold GetNetClass, GetNetwork; rewrite HI, HR, HLoc.
        simpl negb; cbv iota.
        destruct (HasLinkedIPv4 a) eqn:HL; [reflexivity |].
        unfold HasLinkedIPv4 in HL; rewrite HR in HL; simpl in HL.
        rewrite !orb_false_iff in HL; destruct HL as [[[[H4 _] _] _] _].
        unfold IsTor, IsIPv4, IsInternal in *.
        destruct (m_net a); try reflexivity; try contradiction;
          discriminate.
      * unfold GetNetClass, GetNetwork, HasLinkedIPv4; rewrite HI, HR.
        reflexivity.
Qed.

Lemma GetNetClass_GetNetwork_witness :
  GetNetClass sixto4 = Network_to_Z NET_IPV4 /\
  GetNetClass onion = Network_to_Z (GetNetwork onion).
Proof.
  split.
  - apply (proj2 (GetNetClass_GetNetwork sixto4)); discriminate.
  - apply (proj2 (GetNetClass_GetNetwork onion)); discriminate.
Defined.

Lemma memcmp_first_differs (a p : list Z) (n : nat) :
  (0 < n)%nat -> nth 0 a 0 <> nth 0 p 0 -> (memcmp a p n =? 0) = false.
Proof.
  intros Hn Hd; destruct (memcmp a p n =? 0) eqn:E; [| reflexivity].
  exfalso; apply Hd; apply (memcmp_eqb_nth a p n 0 E Hn).
Qed.

(** A Teredo address is always routable. *)
Lemma IsRFC4380_routable (a : CNetAddr) :
  IsRFC4380 a = true -> IsRoutable a = true.
Proof.
  intros H; unfold IsRFC4380 in H.
  rewrite !andb_true_iff, !Z.eqb_eq in H.
  destruct H as ((((H6 & H15) & H14) & H13) & H12).
  assert (H0 : nth 0 (ip a) 0 = 32) by exact H15.
  pose proof (IsIPv6_not_IPv4 a H6) as H4.
  assert (HI : IsInternal a = false).
  { unfold IsInternal; unfold IsIPv6 in H6; apply Network_eqb_eq in H6.
    rewrite H6; reflexivity. }
  unfold IsRoutable, IsValid, IsLocal, IsRFC1918, IsRFC2544, IsRFC3927,
    IsRFC4862, IsRFC6598, IsRFC5737, IsRFC4193, IsRFC4843, IsRFC7343,
    IsRFC3849.
  rewrite H6, H4, HI, H15, H14, H13, H12.
  rewrite !memcmp_first_differs by (try lia; rewrite H0; discriminate).
  reflexivity.
Qed.

(** X8: the score is [REACH_UNREACHABLE] exactly for a candidate that is
    not routable or is internal: a routable, non-internal candidate scores
    at least [REACH_DEFAULT] against every partner. *)
Theorem GetReachabilityFrom_unreachable_iff
  (a : CNetAddr) (partner : option CNetAddr) :
  GetReachabilityFrom a partner = REACH_UNREACHABLE <->
  IsRoutable a = false \/ IsInternal a = true.
Proof.
  unfold GetReachabilityFrom.
  destruct (IsRoutable a), (IsInternal a); simpl negb; simpl orb; cbv iota;
    try (split; [intros _; auto | reflexivity]).
  split; [| intros [H | H]; discriminate H].
  repeat match goal with
         | |- context [if ?c then _ else _] => destruct c
         end; discriminate.
Qed.

Lemma GetReachabilityFrom_unreachable_iff_witness :
  IsRoutable loopback4 = false \/ IsInternal loopback4 = true.
Proof.
  apply (proj1 (GetReachabilityFrom_unreachable_iff loopback4 (Some public4)));
    reflexivity.
Defined.

(** X9: a routable IPv4 candidate scores [REACH_IPV4] against every
    partner, the absent one included. *)
Theorem GetReachabilityFrom_ipv4 (a : CNetAddr) (partner : option CNetAddr) :
  IsIPv4 a = true ->
  IsRoutable a = true ->
  GetReachabilityFrom a partner = REACH_IPV4.
Proof.
  intros H4 HR.
  destruct (IsRoutable_inv a HR) as (_ & _ & HI).
  assert (Ho : GetExtNetwork (Some a) = NET_IPV4)
    by (apply (GetExtNetwork_routable a HR); exact H4).
  unfold GetReachabilityFrom; rewrite HR, HI, Ho; simpl negb; simpl orb.
  cbv iota zeta.
  repeat match goal with
         | |- context [if GetExtNetwork partner =? ?d then _ else _] =>
             destruct (GetExtNetwork partner =? d)
         end; reflexivity.
Qed.

Lemma GetReachabilityFrom_ipv4_witness :
  GetReachabilityFrom public4 None = REACH_IPV4 /\
  GetReachabilityFrom public4 (Some onion) = REACH_IPV4.
Proof.
  split; apply GetReachabilityFrom_ipv4; reflexivity.
Defined.

(** X10: a partner that is not routable is scored like no partner at
    all. *)
Theorem GetReachabilityFrom_unroutable_partner (a p : CNetAddr) :
  IsRoutable p = false ->
  GetReachabilityFrom a (Some p) = GetReachabilityFrom a None.
Proof.
  intros HR.
  assert (HT : IsRFC4380 p = false).
  { destruct (IsRFC4380 p) eqn:E; [| reflexivity].
    rewrite (IsRFC4380_routable p E) in HR; discriminate HR. }
  assert (Hp : GetExtNetwork (Some p) = NET_UNROUTABLE \/
               GetExtNetwork (Some p) = NET_INTERNAL).
  { unfold GetExtNetwork, GetNetwork; rewrite HT, HR.
    destruct (IsInternal p); auto. }
  unfold GetReachabilityFrom.
  destruct (negb (IsRoutable a) || IsInternal a); [reflexivity |].
  cbv zeta.
  destruct Hp as [-> | ->]; reflexivity.
Qed.

Lemma GetReachabilityFrom_unroutable_partner_witness :
  GetReachabilityFrom onion (Some private4) = GetReachabilityFrom onion None.
Proof.
  apply GetReachabilityFrom_unroutable_partner; reflexivity.
Defined.

(** X11: [REACH_PRIVATE] is only ever given to an onion candidate, and
    [REACH_IPV6_STRONG] only to an IPv6 candidate that is not tunneled
    (RFC3964, RFC6052, RFC6145) nor Teredo, facing an IPv6 partner. *)
Theorem GetReachabilityFrom_private_strong
  (a : CNetAddr) (partner : option CNetAddr) :
  (GetReachabilityFrom a partner = REACH_PRIVATE ->
   IsTor a = true /\ IsRoutable a = true) /\
  (GetReachabilityFrom a partner = REACH_IPV6_STRONG ->
   IsIPv6 a = true /\ IsRoutable a = true /\
   IsRFC4380 a = false /\ IsRFC3964 a = false /\ IsRFC6052 a = false /\
   IsRFC6145 a = false /\
   GetExtNetwork partner = NET_IPV6).
Proof.
  unfold GetReachabilityFrom.
  destruct (IsRoutable a) eqn:HR;
    [| split; simpl; discriminate].
  destruct (IsInternal a) eqn:HI; [split; simpl; discriminate |].
  simpl negb; simpl orb; cbv iota zeta.
  destruct (GetExtNetwork_routable a HR) as (_ & HO & H6).
  split.
  - intros H; split; [| reflexivity]; apply HO.
    revert H.
    repeat match goal with
           | |- context [if ?c =? ?d then _ else _] =>
               destruct (Z.eqb_spec c d)
           | |- context [if ?c then _ else _] => destruct c
           end; try discriminate; intros _; assumption.
  - intros H.
    assert (Hboth : GetExtNetwork partner = NET_IPV6 /\
                    GetExtNetwork (Some a) = NET_IPV6 /\
                    IsRFC3964 a || IsRFC6052 a || IsRFC6145 a = false).
    { revert H.
      destruct (IsRFC3964 a || IsRFC6052 a || IsRFC6145 a);
      repeat match goal with
             | |- context [if ?c =? ?d then _ else _] =>
                 destruct (Z.eqb_spec c d)
             end; try discriminate; intros _; auto. }
    destruct Hboth as (Hp & Ho & Ht).
    apply H6 in Ho; destruct Ho as [Hv6 Hter].
    rewrite !orb_false_iff in Ht; destruct Ht as [[H1 H2] H3].
    repeat split; assumption.
Qed.

Lemma GetReachabilityFrom_private_strong_witness :
  IsTor onion = true /\ IsRoutable onion = true.
Proof.
  apply (proj1 (GetReachabilityFrom_private_strong onion None)); reflexivity.
Defined.

(* ================================================================== *)
(** * Equality and order *)
(* ================================================================== *)

Lemma memcmp_range (n : nat) : forall a b : list Z,
  memcmp a b n = -1 \/ memcmp a b n = 0 \/ memcmp a b n = 1.
Proof.
  induction n as [| n IH]; intros a b; simpl; [auto |].
  destruct (hd 0 a <? hd 0 b); [auto |].
  destruct (hd 0 b <? hd 0 a); [auto | apply IH].
Qed.

Lemma memcmp_refl (n : nat) : forall a : list Z, memcmp a a n = 0.
Proof.
  induction n as [| n IH]; intros a; simpl; [reflexivity |].
  rewrite Z.ltb_irrefl; apply IH.
Qed.

Lemma memcmp_antisym (n : nat) : forall a b : list Z,
  memcmp b a n = - memcmp a b n.
Proof.
  induction n as [| n IH]; intros a b; simpl; [reflexivity |].
  destruct (hd 0 a <? hd 0 b) eqn:E1, (hd 0 b <? hd 0 a) eqn:E2;
    try reflexivity; [| apply IH].
  apply Z.ltb_lt in E1, E2; lia.
Qed.

Lemma memcmp_trans (n : nat) : forall a b c : list Z,
  memcmp a b n <= 0 -> memcmp b c n <= 0 ->
  memcmp a c n <= 0 /\
  (memcmp a c n = 0 -> memcmp a b n = 0 /\ memcmp b c n = 0).
Proof.
  induction n as [| n IH]; intros a b c; simpl; [auto |].
  destruct (hd 0 a <? hd 0 b) eqn:E1, (hd 0 b <? hd 0 a) eqn:E2,
    (hd 0 b <? hd 0 c) eqn:E3, (hd 0 c <? hd 0 b) eqn:E4,
    (hd 0 a <? hd 0 c) eqn:E5, (hd 0 c <? hd 0 a) eqn:E6;
    rewrite ?Z.ltb_lt, ?Z.ltb_ge in *; intros H1 H2; try lia;
    try (split; [lia | intros; lia]).
  apply IH; assumption.
Qed.

Lemma memcmp_lt_trans (n : nat) (a b c : list Z) :
  memcmp a b n <= 0 -> memcmp b c n <= 0 ->
  memcmp a b n < 0 \/ memcmp b c n < 0 -> memcmp a c n < 0.
Proof.
  intros H1 H2 H3.
  destruct (memcmp_trans n a b c H1 H2) as [Hle Hz].
  destruct (Z.eq_dec (memcmp a c n) 0) as [E | E]; [| lia].
  destruct (Hz E); lia.
Qed.

(** On sixteen-byte buffers [memcmp] returns 0 only for equal buffers. *)
Lemma memcmp_16_eq (x y : list Z) :
  length x = 16%nat -> length y = 16%nat ->
  (memcmp x y 16 = 0 <-> x = y).
Proof.
  intros Hx Hy; split; [| intros ->; apply memcmp_refl].
  intros H; apply (nth_ext x y 0 0); [congruence |].
  intros i Hi; apply (proj1 (memcmp_eq_nth 16 x y) H); lia.
Qed.

Lemma memcmp_eq_left (n : nat) : forall a b c : list Z,
  memcmp a b n = 0 -> memcmp a c n = memcmp b c n.
Proof.
  induction n as [| n IH]; intros a b c; simpl; [reflexivity |].
  destruct (hd 0 a <? hd 0 b) eqn:E1; [discriminate |].
  destruct (hd 0 b <? hd 0 a) eqn:E2; [discriminate |].
  apply Z.ltb_ge in E1, E2; intros H.
  replace (hd 0 a) with (hd 0 b) by lia.
  rewrite (IH _ _ (tl c) H); reflexivity.
Qed.

Lemma memcmp_eq_right (n : nat) (a b c : list Z) :
  memcmp b c n = 0 -> memcmp a b n = memcmp a c n.
Proof.
  intros H.
  rewrite (memcmp_antisym n b a), (memcmp_antisym n c a).
  f_equal; apply memcmp_eq_left; exact H.
Qed.

Lemma CNetAddr_eq_iff (a b : CNetAddr) :
  length (ip a) = 16%nat -> length (ip b) = 16%nat ->
  (CNetAddr_eq a b = true <-> m_net a = m_net b /\ ip a = ip b).
Proof.
  intros Ha Hb; unfold CNetAddr_eq.
  rewrite andb_true_iff, !Z.eqb_eq, (memcmp_16_eq _ _ Ha Hb).
  split; intros [H1 H2]; split; try assumption.
  - apply Network_eqb_eq; unfold Network_eqb; apply Z.eqb_eq; exact H1.
  - rewrite H1; reflexivity.
Qed.

Lemma CNetAddr_eq_refl (a : CNetAddr) : CNetAddr_eq a a = true.
Proof. unfold CNetAddr_eq; rewrite Z.eqb_refl, memcmp_refl; reflexivity. Qed.

Lemma CNetAddr_eq_sym (a b : CNetAddr) : CNetAddr_eq a b = CNetAddr_eq b a.
Proof.
  unfold CNetAddr_eq.
  rewrite (Z.eqb_sym (m_net a) (m_net b)), (memcmp_antisym 16 (ip b) (ip a)).
  f_equal.
  destruct (memcmp_range 16 (ip b) (ip a)) as [M | [M | M]]; rewrite M;
    reflexivity.
Qed.

Lemma CNetAddr_lt_irrefl (a : CNetAddr) : CNetAddr_lt a a = false.
Proof.
  unfold CNetAddr_lt.
  rewrite Z.ltb_irrefl, memcmp_refl, andb_false_r; reflexivity.
Qed.

Lemma CNetAddr_lt_trans (a b c : CNetAddr) :
  CNetAddr_lt a b = true -> CNetAddr_lt b c = true -> CNetAddr_lt a c = true.
Proof.
  unfold CNetAddr_lt.
  rewrite !orb_true_iff, !andb_true_iff, !Z.ltb_lt, !Z.eqb_eq.
  intros [H1 | [H1 M1]] [H2 | [H2 M2]]; try (left; lia).
  right; split; [lia |].
  apply (memcmp_lt_trans 16 (ip a) (ip b) (ip c)); lia.
Qed.

Lemma CNetAddr_eq_lt_l (a b c : CNetAddr) :
  CNetAddr_eq a b = true -> CNetAddr_lt a c = CNetAddr_lt b c.
Proof.
  unfold CNetAddr_eq, CNetAddr_lt.
  rewrite andb_true_iff, !Z.eqb_eq; intros [Hn Hm].
  rewrite Hn, (memcmp_eq_left 16 _ _ (ip c) Hm); reflexivity.
Qed.

Lemma CNetAddr_eq_lt_r (a b c : CNetAddr) :
  CNetAddr_eq b c = true -> CNetAddr_lt a b = CNetAddr_lt a c.
Proof.
  unfold CNetAddr_eq, CNetAddr_lt.
  rewrite andb_true_iff, !Z.eqb_eq; intros [Hn Hm].
  rewrite Hn, (memcmp_eq_right 16 (ip a) _ _ Hm); reflexivity.
Qed.

Lemma CNetAddr_eq_trans (a b c : CNetAddr) :
  CNetAddr_eq a b = true -> CNetAddr_eq b c = true -> CNetAddr_eq a c = true.
Proof.
  unfold CNetAddr_eq.
  rewrite !andb_true_iff, !Z.eqb_eq; intros [Hn Hm] [Hn' Hm'].
  split; [lia |].
  rewrite (memcmp_eq_left 16 _ _ (ip c) Hm); exact Hm'.
Qed.

Lemma CNetAddr_trichotomy (a b : CNetAddr) :
  (CNetAddr_lt a b = true /\ CNetAddr_eq a b = false /\
   CNetAddr_lt b a = false) \/
  (CNetAddr_lt a b = false /\ CNetAddr_eq a b = true /\
   CNetAddr_lt b a = false) \/
  (CNetAddr_lt a b = false /\ CNetAddr_eq a b = false /\
   CNetAddr_lt b a = true).
Proof.
  unfold CNetAddr_lt, CNetAddr_eq.
  rewrite (memcmp_antisym 16 (ip a) (ip b)).
  destruct (memcmp_range 16 (ip a) (ip b)) as [M | [M | M]]; rewrite M;
    destruct (Z.lt_total (Network_to_Z (m_net a)) (Network_to_Z (m_net b)))
      as [L | [L | L]];
    repeat match goal with
           | |- context [?x <? ?y] => destruct (Z.ltb_spec x y)
           | |- context [?x =? ?y] => destruct (Z.eqb_spec x y)
           end; try lia; simpl; auto.
Qed.

(** X12: [operator==] on addresses holds exactly when family and the
    sixteen bytes agree (the scope is not compared), and [operator<] is a
    strict total order for it: irreflexive, transitive, and of [a < b],
    [a == b], [b < a] exactly one holds. *)
Theorem CNetAddr_order :
  (forall a b : CNetAddr,
      length (ip a) = 16%nat -> length (ip b) = 16%nat ->
      (CNetAddr_eq a b = true <-> m_net a = m_net b /\ ip a = ip b)) /\
  (forall a : CNetAddr, CNetAddr_lt a a = false) /\
  (forall a b c : CNetAddr,
      CNetAddr_lt a b = true -> CNetAddr_lt b c = true ->
      CNetAddr_lt a c = true) /\
  (forall a b : CNetAddr,
      (CNetAddr_lt a b = true /\ CNetAddr_eq a b = false /\
       CNetAddr_lt b a = false) \/
      (CNetAddr_lt a b = false /\ CNetAddr_eq a b = true /\
       CNetAddr_lt b a = false) \/
      (CNetAddr_lt a b = false /\ CNetAddr_eq a b = false /\
       CNetAddr_lt b a = true)).
Proof.
  split; [exact CNetAddr_eq_iff |].
  split; [exact CNetAddr_lt_irrefl |].
  split; [exact CNetAddr_lt_trans | exact CNetAddr_trichotomy].
Qed.

Lemma CNetAddr_order_witness :
  CNetAddr_lt public4' public4 = true /\
  CNetAddr_lt public4' public6 = true /\
  (CNetAddr_eq public4 (ipv6_addr (pchIPv4 ++ [8; 8; 8; 8])) = true).
Proof.
  destruct CNetAddr_order as (Heq & _ & Htrans & _).
  split; [reflexivity |].
  split.
  - apply (Htrans public4' public4 public6); reflexivity.
  - apply Heq; try reflexivity; split; reflexivity.
Defined.

(** X13: [operator<] on services orders by address first and port second:
    it is a strict total order for [operator==]. *)
Theorem CService_order :
  (forall a : CService, CService_lt a a = false) /\
  (forall a b c : CService,
      CService_lt a b = true -> CService_lt b c = true ->
      CService_lt a c = true) /\
  (forall a b : CService,
      (CService_lt a b = true /\ CService_eq a b = false /\
       CService_lt b a = false) \/
      (CService_lt a b = false /\ CService_eq a b = true /\
       CService_lt b a = false) \/
      (CService_lt a b = false /\ CService_eq a b = false /\
       CService_lt b a = true)).
Proof.
  split; [| split].
  - intros a; unfold CService_lt.
    rewrite CNetAddr_lt_irrefl, Z.ltb_irrefl, andb_false_r; reflexivity.
  - intros a b c; unfold CService_lt.
    rewrite !orb_true_iff, !andb_true_iff, !Z.ltb_lt.
    intros [H1 | [H1 P1]] [H2 | [H2 P2]].
    + left; apply (CNetAddr_lt_trans _ _ _ H1 H2).
    + left; rewrite <- (CNetAddr_eq_lt_r _ _ _ H2); exact H1.
    + left; rewrite (CNetAddr_eq_lt_l _ _ _ H1); exact H2.
    + right; split; [apply (CNetAddr_eq_trans _ _ _ H1 H2) | lia].
  - intros a b; unfold CService_lt, CService_eq.
    rewrite (CNetAddr_eq_sym (service_addr b) (service_addr a)).
    destruct (CNetAddr_trichotomy (service_addr a) (service_addr b))
      as [(-> & -> & ->) | [(-> & -> & ->) | (-> & -> & ->)]];
      simpl; auto.
    destruct (Z.lt_total (port a) (port b)) as [L | [L | L]];
      repeat match goal with
             | |- context [?x <? ?y] => destruct (Z.ltb_spec x y)
             | |- context [?x =? ?y] => destruct (Z.eqb_spec x y)
             end; try lia; auto.
Qed.

Lemma CService_order_witness :
  CService_lt (mkCService public4 8333) (mkCService public6 80) = true.
Proof.
  destruct CService_order as (_ & Htrans & _).
  apply (Htrans _ (mkCService public4 8334) _); reflexivity.
Defined.

(** X14: [operator<] on subnets is irreflexive and transitive and never
    holds between subnets that [operator==] equates; but it does not look at
    [valid]: two subnets with the same network and netmask and different
    validity are unequal, and neither is less than the other. *)
Theorem CSubNet_order :
  (forall a : CSubNet, CSubNet_lt a a = false) /\
  (forall a b c : CSubNet,
      CSubNet_lt a b = true -> CSubNet_lt b c = true ->
      CSubNet_lt a c = true) /\
  (forall a b : CSubNet,
      CSubNet_eq a b = true ->
      CSubNet_lt a b = false /\ CSubNet_lt b a = false) /\
  (forall a b : CSubNet,
      valid a <> valid b ->
      CNetAddr_eq (network a) (network b) = true ->
      memcmp (netmask a) (netmask b) 16 = 0 ->
      CSubNet_eq a b = false /\
      CSubNet_lt a b = false /\ CSubNet_lt b a = false).
Proof.
  assert (Heq : forall a b : CSubNet,
             CNetAddr_eq (network a) (network b) = true ->
             memcmp (netmask a) (netmask b) 16 = 0 ->
             CSubNet_lt a b = false /\ CSubNet_lt b a = false).
  { intros a b HN HM; unfold CSubNet_lt.
    rewrite (CNetAddr_eq_sym (network b) (network a)), HN.
    rewrite (memcmp_antisym 16 (netmask a) (netmask b)), HM.
    destruct (CNetAddr_trichotomy (network a) (network b))
      as [(_ & E & _) | [(-> & _ & ->) | (_ & E & _)]];
      try (rewrite E in HN; discriminate HN).
    split; reflexivity. }
  split; [| split; [| split]].
  - intros a; unfold CSubNet_lt.
    rewrite CNetAddr_lt_irrefl, memcmp_refl, andb_false_r; reflexivity.
  - intros a b c; unfold CSubNet_lt.
    rewrite !orb_true_iff, !andb_true_iff, !Z.ltb_lt.
    intros [H1 | [H1 P1]] [H2 | [H2 P2]].
    + left; apply (CNetAddr_lt_trans _ _ _ H1 H2).
    + left; rewrite <- (CNetAddr_eq_lt_r _ _ _ H2); exact H1.
    + left; rewrite (CNetAddr_eq_lt_l _ _ _ H1); exact H2.
    + right; split; [apply (CNetAddr_eq_trans _ _ _ H1 H2) |].
      apply (memcmp_lt_trans 16 (netmask a) (netmask b) (netmask c)); lia.
  - intros a b H; unfold CSubNet_eq in H.
    rewrite !andb_true_iff, Z.eqb_eq in H; destruct H as [[_ HN] HM].
    apply Heq; assumption.
  - intros a b Hv HN HM; split; [| apply Heq; assumption].
    unfold CSubNet_eq.
    destruct (valid a), (valid b); try reflexivity; contradiction Hv;
      reflexivity.
Qed.

Lemma CSubNet_order_witness :
  CSubNet_eq (CSubNet_cidr public4 32) (CSubNet_cidr public4 33) = false /\
  CSubNet_lt (CSubNet_cidr public4 32) (CSubNet_cidr public4 33) = false /\
  CSubNet_lt (CSubNet_cidr public4 33) (CSubNet_cidr public4 32) = false.
Proof.
  destruct CSubNet_order as (_ & _ & _ & H).
  apply (H (CSubNet_cidr public4 32) (CSubNet_cidr public4 33));
    [discriminate | reflexivity | reflexivity].
Defined.

(* ================================================================== *)
(** * Setters *)
(* ================================================================== *)

(** X15: an IPv6 buffer with the IPv4-mapped prefix is stored as the IPv4
    address of its last four bytes: [SetRaw] gives the same address for
    [NET_IPV6] with the sixteen bytes and for [NET_IPV4] with the four, and
    [GetInAddr] gives the four bytes back while [GetIn6Addr] refuses. *)
Theorem SetRaw_ipv4_mapped (a : CNetAddr) (l : list Z) :
  length l = 4%nat ->
  SetRaw a NET_IPV6 (pchIPv4 ++ l) = SetRaw a NET_IPV4 l /\
  exists r : CNetAddr,
    SetRaw a NET_IPV4 l = Some r /\
    m_net r = NET_IPV4 /\
    ip r = pchIPv4 ++ l /\
    GetInAddr r = Some l /\
    GetIn6Addr r = None.
Proof.
  intros Hlen.
  destruct l as [| x0 [| x1 [| x2 [| x3 [| ? ?]]]]]; try discriminate Hlen.
  split; [reflexivity |].
  eexists; split; [reflexivity |].
  repeat split.
Qed.

Lemma SetRaw_ipv4_mapped_witness :
  SetRaw addr_zero NET_IPV6 (pchIPv4 ++ [8; 8; 8; 8])
  = SetRaw addr_zero NET_IPV4 [8; 8; 8; 8].
Proof.
  apply (SetRaw_ipv4_mapped addr_zero [8; 8; 8; 8]); reflexivity.
Defined.

(** X16: when the name is a non-empty string followed by [".onion"] and
    its decoding is ten bytes long, [SetSpecial] succeeds and overwrites the
    whole address: the family is onion and the bytes are the onion prefix
    followed by the decoded bytes, whatever the address held before; the
    result is routable. *)
Theorem SetSpecial_success
  (DecodeBase32 : string -> list Z) (a : CNetAddr) (p : string) :
  length (ip a) = 16%nat ->
  p <> ""%string ->
  length (DecodeBase32 (c_str p)) = 10%nat ->
  SetSpecial DecodeBase32 a (p ++ ".onion")
  = (true, {| m_net := NET_ONION;
              ip := pchOnionCat ++ DecodeBase32 (c_str p);
              scopeId := scopeId a |}) /\
  IsTor (snd (SetSpecial DecodeBase32 a (p ++ ".onion"))) = true /\
  IsRoutable (snd (SetSpecial DecodeBase32 a (p ++ ".onion"))) = true.
Proof.
  intros Ha Hp Hd.
  assert (E : SetSpecial DecodeBase32 a (p ++ ".onion")
              = (true, {| m_net := NET_ONION;
                          ip := pchOnionCat ++ DecodeBase32 (c_str p);
                          scopeId := scopeId a |})).
  { unfold SetSpecial.
    rewrite (proj2 (onion_suffix_test (p ++ ".onion")))
      by (exists p; split; [exact Hp | reflexivity]).
    rewrite onion_prefix, Hd; cbn [Nat.sub Nat.eqb negb].
    do 2 f_equal.
    destruct (DecodeBase32 (c_str p))
      as [| d0 [| d1 [| d2 [| d3 [| d4 [| d5 [| d6 [| d7 [| d8 [| d9 [| ? ?]]]]]]]]]]];
      try discriminate Hd.
    destruct (ip a) as [| ? l]; [discriminate Ha |].
    do 15 (destruct l as [| ? l]; [discriminate Ha |]).
    destruct l; [reflexivity | discriminate Ha]. }
  split; [exact E |].
  rewrite E; cbn [snd].
  split; [reflexivity |].
  apply IsTor_facts; reflexivity.
Qed.

Lemma SetSpecial_success_witness :
  SetSpecial (fun _ => [1; 2; 3; 4; 5; 6; 7; 8; 9; 10]) private4 "abc.onion"
  = (true, onion).
Proof.
  apply (SetSpecial_success (fun _ => [1; 2; 3; 4; 5; 6; 7; 8; 9; 10])
           private4 "abc");
    [reflexivity | discriminate | reflexivity].
Defined.

(** X17: [SetInternal] refuses only the empty name, leaving the address
    alone; for any other name the address becomes the internal prefix
    followed by the first ten hash bytes, of the internal family, and such
    an address is neither valid nor routable. *)
Theorem SetInternal_spec
  (CSHA256 : string -> list Z) (a : CNetAddr) (name : string) :
  length (ip a) = 16%nat ->
  (10 <= length (CSHA256 name))%nat ->
  (name = ""%string -> SetInternal CSHA256 a name = (false, a)) /\
  (name <> ""%string ->
   SetInternal CSHA256 a name
   = (true, {| m_net := NET_INTERNAL;
               ip := g_internal_prefix ++ firstn 10 (CSHA256 name);
               scopeId := scopeId a |}) /\
   IsInternal (snd (SetInternal CSHA256 a name)) = true /\
   IsValid (snd (SetInternal CSHA256 a name)) = false /\
   IsRoutable (snd (SetInternal CSHA256 a name)) = false).
Proof.
  intros Ha Hh; split.
  - intros ->; reflexivity.
  - intros Hn.
    assert (E : SetInternal CSHA256 a name
                = (true, {| m_net := NET_INTERNAL;
                            ip := g_internal_prefix ++ firstn 10 (CSHA256 name);
                            scopeId := scopeId a |})).
    { unfold SetInternal.
      destruct name as [| c name]; [contradiction Hn; reflexivity |].
      cbn [String.length Nat.eqb].
      do 2 f_equal.
      unfold memcpy; cbn [Nat.sub Nat.add].
      rewrite firstn_firstn; cbn [Nat.min].
      destruct (ip a) as [| ? l]; [discriminate Ha |].
      do 15 (destruct l as [| ? l]; [discriminate Ha |]).
      destruct l; [| discriminate Ha].
      cbn [firstn skipn app g_internal_prefix].
      rewrite app_nil_r; reflexivity. }
    split; [exact E |].
    rewrite E; cbn [snd].
    split; [reflexivity |].
    split; apply IsInternal_facts; reflexivity.
Qed.

Lemma SetInternal_spec_witness :
  SetInternal (fun _ => repeat 9 32) public4 "seed"
  = (true, {| m_net := NET_INTERNAL;
              ip := g_internal_prefix ++ repeat 9 10;
              scopeId := 0 |}).
Proof.
  apply (SetInternal_spec (fun _ => repeat 9 32) public4 "seed");
    [reflexivity | simpl; lia | discriminate].
Defined.

(* ================================================================== *)
(** * Prefix-length subnets *)
(* ================================================================== *)

(** Netmask and validity of a prefix-length subnet depend on the address
    only through its being IPv4 or not. *)
Lemma CSubNet_cidr_family (addr : CNetAddr) (n : Z) :
  let rep := if IsIPv4 addr then public4 else public6 in
  netmask (CSubNet_cidr addr n) = netmask (CSubNet_cidr rep n) /\
  valid (CSubNet_cidr addr n) = valid (CSubNet_cidr rep n) /\
  ToString_cidr (CSubNet_cidr addr n) = ToString_cidr (CSubNet_cidr rep n) /\
  IsSingleIP (CSubNet_cidr addr n) = IsSingleIP (CSubNet_cidr rep n).
Proof.
  assert (H : forall x y : CNetAddr, IsIPv4 x = IsIPv4 y ->
              netmask (CSubNet_cidr x n) = netmask (CSubNet_cidr y n) /\
              valid (CSubNet_cidr x n) = valid (CSubNet_cidr y n)).
  { intros x y E; unfold CSubNet_cidr; rewrite E.
    destruct ((0 <=? n) && _); split; reflexivity. }
  assert (E : IsIPv4 addr = IsIPv4 (if IsIPv4 addr then public4 else public6))
    by (destruct (IsIPv4 addr); reflexivity).
  destruct (H addr _ E) as [HN HV].
  cbv zeta; split; [exact HN |]; split; [exact HV |].
  unfold ToString_cidr, IsSingleIP; rewrite HN.
  assert (F : forall x : CNetAddr,
             IsIPv4 (network (CSubNet_cidr x n)) = IsIPv4 x).
  { intros x; unfold CSubNet_cidr.
    destruct ((0 <=? n) && _); reflexivity. }
  rewrite !F, <- E; split; reflexivity.
Qed.

(** A property checked for [k] = 0 .. [m] holds of every integer in
    [0, m]. *)
Lemma forall_upto (P : Z -> bool) (m : nat) :
  forallb P (map Z.of_nat (seq 0 (S m))) = true ->
  forall n : Z, 0 <= n <= Z.of_nat m -> P n = true.
Proof.
  intros H n Hn; rewrite forallb_forall in H; apply H.
  apply in_map_iff; exists (Z.to_nat n); split; [lia |].
  apply in_seq; lia.
Qed.

Lemma cidr_netmask_ok_all (addr : CNetAddr) (n : Z) :
  0 <= n <= 128 - (if IsIPv4 addr then 12 else 0) * 8 ->
  cidr_netmask_ok addr n = true.
Proof.
  intros Hn.
  assert (E : cidr_netmask_ok addr n
              = cidr_netmask_ok (if IsIPv4 addr then public4 else public6) n).
  { destruct (CSubNet_cidr_family addr n) as (HN & HV & HT & HS).
    unfold cidr_netmask_ok; cbv zeta in *.
    rewrite HN, HV, HT, HS.
    destruct (IsIPv4 addr); reflexivity. }
  rewrite E; destruct (IsIPv4 addr).
  - apply (forall_upto (cidr_netmask_ok public4) 32);
      [vm_compute; reflexivity | lia].
  - apply (forall_upto (cidr_netmask_ok public6) 128);
      [vm_compute; reflexivity | lia].
Qed.

Lemma cidr_netmask_ok_inv (addr : CNetAddr) (n : Z) :
  cidr_netmask_ok addr n = true ->
  valid (CSubNet_cidr addr n) = true /\
  wf_bytes 16 (netmask (CSubNet_cidr addr n)) /\
  bits_of_bytes (netmask (CSubNet_cidr addr n))
  = prefix_mask_bits (Z.to_nat ((if IsIPv4 addr then 96 else 0) + n)) 128 /\
  ToString_cidr (CSubNet_cidr addr n) = n /\
  IsSingleIP (CSubNet_cidr addr n)
  = (n =? 128 - (if IsIPv4 addr then 96 else 0)) /\
  (IsIPv4 addr = true ->
   firstn 12 (netmask (CSubNet_cidr addr n)) = repeat 0xFF 12).
Proof.
  unfold cidr_netmask_ok; cbv zeta.
  rewrite !andb_true_iff; intros (((((HV & HW) & HB) & HT) & HS) & HF).
  split; [exact HV |].
  pose proof (wf_bytesb_correct _ _ HW) as HW'.
  split; [exact HW' |].
  split; [destruct (list_eq_dec bool_dec _ _) as [E | _];
          [exact E | discriminate HB] |].
  split; [apply Z.eqb_eq; exact HT |].
  split; [apply eqb_prop; exact HS |].
  intros H4; rewrite H4 in HF.
  assert (HL : length (firstn 12 (netmask (CSubNet_cidr addr n))) = 12%nat)
    by (rewrite length_firstn; destruct HW' as [-> _]; reflexivity).
  revert HF HL; generalize (firstn 12 (netmask (CSubNet_cidr addr n))).
  intros l HF HL; rewrite forallb_forall in HF.
  apply (nth_ext l (repeat 255 12) 0 0); [rewrite HL; reflexivity |].
  intros i Hi; rewrite nth_repeat_lt by lia.
  symmetry; apply Z.eqb_eq, HF, nth_In; exact Hi.
Qed.

(** X18: for a prefix length [n] in range (0..32 on an IPv4 address,
    0..128 otherwise) the prefix-length constructor gives a valid subnet
    whose netmask is sixteen bytes holding [offset * 8 + n] one-bits followed
    by zero-bits, the offset being 12 bytes for IPv4 and 0 otherwise. *)
Theorem CSubNet_cidr_netmask (addr : CNetAddr) (n : Z) :
  0 <= n <= 128 - (if IsIPv4 addr then 12 else 0) * 8 ->
  valid (CSubNet_cidr addr n) = true /\
  wf_bytes 16 (netmask (CSubNet_cidr addr n)) /\
  bits_of_bytes (netmask (CSubNet_cidr addr n))
  = repeat true (Z.to_nat ((if IsIPv4 addr then 12 else 0) * 8 + n))
    ++ repeat false (Z.to_nat (128 - (if IsIPv4 addr then 12 else 0) * 8 - n)).
Proof.
  intros Hn.
  destruct (cidr_netmask_ok_inv addr n (cidr_netmask_ok_all addr n Hn))
    as (HV & HW & HB & _).
  split; [exact HV |]; split; [exact HW |].
  rewrite HB; unfold prefix_mask_bits.
  destruct (IsIPv4 addr); do 2 f_equal; lia.
Qed.

Lemma CSubNet_cidr_netmask_witness :
  bits_of_bytes (netmask (CSubNet_cidr public4 24))
  = repeat true 120 ++ repeat false 8.
Proof.
  apply (CSubNet_cidr_netmask public4 24); simpl; lia.
Defined.

(** X19: the prefix length that [ToString] prints for a prefix-length
    subnet is the prefix length it was built from, for every length in
    range. *)
Theorem ToString_cidr_roundtrip (addr : CNetAddr) (n : Z) :
  0 <= n <= 128 - (if IsIPv4 addr then 12 else 0) * 8 ->
  ToString_cidr (CSubNet_cidr addr n) = n.
Proof.
  intros Hn.
  apply (cidr_netmask_ok_inv addr n (cidr_netmask_ok_all addr n Hn)).
Qed.

Lemma ToString_cidr_roundtrip_witness :
  ToString_cidr (CSubNet_cidr public6 77) = 77.
Proof. apply ToString_cidr_roundtrip; simpl; lia. Defined.

(** X20: a prefix-length subnet in range is a single address exactly at
    the full width (32 for IPv4, 128 otherwise); a subnet made invalid by
    an out-of-range length keeps the all-ones netmask and so also reports a
    single address. *)
Theorem IsSingleIP_cidr (addr : CNetAddr) (n : Z) :
  (0 <= n <= 128 - (if IsIPv4 addr then 12 else 0) * 8 ->
   (IsSingleIP (CSubNet_cidr addr n) = true <->
    n = 128 - (if IsIPv4 addr then 12 else 0) * 8)) /\
  (n < 0 \/ n > 128 - (if IsIPv4 addr then 12 else 0) * 8 ->
   IsSingleIP (CSubNet_cidr addr n) = true).
Proof.
  split.
  - intros Hn.
    destruct (cidr_netmask_ok_inv addr n (cidr_netmask_ok_all addr n Hn))
      as (_ & _ & _ & _ & HS & _).
    rewrite HS, Z.eqb_eq; destruct (IsIPv4 addr); lia.
  - intros Hn; unfold CSubNet_cidr.
    replace ((0 <=? n) && (n <=? _)) with false; [reflexivity |].
    symmetry; apply andb_false_iff; rewrite !Z.leb_gt.
    destruct (IsIPv4 addr); lia.
Qed.

Lemma IsSingleIP_cidr_witness :
  IsSingleIP (CSubNet_cidr public4 32) = true /\
  IsSingleIP (CSubNet_cidr public4 40) = true.
Proof.
  split.
  - apply (proj1 (IsSingleIP_cidr public4 32)); simpl; lia.
  - apply (proj2 (IsSingleIP_cidr public4 40)); right; simpl; lia.
Defined.

(* ================================================================== *)
(** * Normalized networks and matching *)
(* ================================================================== *)

Lemma normalize_map (ipv mask : list Z) :
  length ipv = 16%nat ->
  normalize ipv mask
  = map (fun i => Z.land (nth i ipv 0) (nth i mask 0)) (seq 0 16).
Proof.
  intros H.
  do 16 (destruct ipv as [| ? ipv]; [discriminate H |]).
  destruct ipv; [reflexivity | discriminate H].
Qed.

Lemma nth_map_seq16 (f : nat -> Z) (i : nat) :
  (i < 16)%nat -> nth i (map f (seq 0 16)) 0 = f i.
Proof.
  intros Hi.
  do 16 (destruct i as [| i]; [reflexivity |]); lia.
Qed.

Lemma land_twice (x m : Z) : Z.land (Z.land x m) m = Z.land x m.
Proof. rewrite <- Z.land_assoc, Z.land_diag; reflexivity. Qed.

Lemma land_255_uint8 (b : Z) : is_uint8 b -> Z.land b 0xFF = b.
Proof.
  intros H; rewrite land_255_mod; apply Z.mod_small; exact H.
Qed.

Lemma normalized_intro (addr : CNetAddr) (mask : list Z) (v : bool) :
  length (ip addr) = 16%nat ->
  normalized addr {| network := set_ip addr (normalize (ip addr) mask);
                     netmask := mask; valid := v |}.
Proof.
  intros H; unfold normalized; cbn [network netmask set_ip m_net ip scopeId].
  rewrite (normalize_map _ _ H).
  repeat split.
  intros i Hi; rewrite (nth_map_seq16 _ i Hi); apply land_twice.
Qed.

Lemma CSubNet_cidr_normalized (addr : CNetAddr) (n : Z) :
  length (ip addr) = 16%nat -> normalized addr (CSubNet_cidr addr n).
Proof.
  intros H; unfold CSubNet_cidr.
  destruct ((0 <=? n) && _); apply normalized_intro; exact H.
Qed.

Lemma CSubNet_mask_cases (storage : list Z) (addr mask : CNetAddr) :
  (valid (CSubNet_mask storage addr mask) = false /\
   network (CSubNet_mask storage addr mask) = addr /\
   netmask (CSubNet_mask storage addr mask) = storage) \/
  (valid (CSubNet_mask storage addr mask) = true /\
   exists m : list Z,
     CSubNet_mask storage addr mask
     = {| network := set_ip addr (normalize (ip addr) m);
          netmask := m; valid := true |}).
Proof.
  unfold CSubNet_mask.
  destruct (negb (mask_scan _ (ip mask) false)).
  - left; repeat split.
  - right; split; [reflexivity |]; eexists; reflexivity.
Qed.

(** X21: both subnet constructors leave the network normalized: each byte
    of the stored network is the address byte ANDed with the netmask byte,
    so [network.ip[i] & netmask[i] == network.ip[i]], and family and scope
    are those of the address.  The explicit-mask constructor does so when
    the mask is accepted; when it rejects the mask it returns early with
    the address as given. *)
Theorem CSubNet_network_normalized
  (storage : list Z) (addr mask : CNetAddr) (n : Z) :
  length (ip addr) = 16%nat ->
  normalized addr (CSubNet_cidr addr n) /\
  (valid (CSubNet_mask storage addr mask) = true ->
   normalized addr (CSubNet_mask storage addr mask)) /\
  (valid (CSubNet_mask storage addr mask) = false ->
   network (CSubNet_mask storage addr mask) = addr).
Proof.
  intros H; split; [apply CSubNet_cidr_normalized; exact H |].
  destruct (CSubNet_mask_cases storage addr mask)
    as [(HV & HN & _) | (HV & m & E)]; rewrite HV.
  - split; [discriminate | intros _; exact HN].
  - split; [| discriminate].
    intros _; rewrite E; apply normalized_intro; exact H.
Qed.

Lemma CSubNet_network_normalized_witness :
  ip (network (CSubNet_cidr (ipv4_addr 192 168 1 77) 24))
  = pchIPv4 ++ [192; 168; 1; 0].
Proof.
  destruct (CSubNet_network_normalized [] (ipv4_addr 192 168 1 77) public4 24
              eq_refl) as ((_ & _ & Hip & _) & _).
  rewrite Hip; reflexivity.
Defined.

Lemma prefix_kept (a m : list Z) :
  length a = 16%nat ->
  has_prefix pchIPv4 a ->
  firstn 12 m = repeat 0xFF 12 ->
  has_prefix pchIPv4
    (map (fun i => Z.land (nth i a 0) (nth i m 0)) (seq 0 16)).
Proof.
  intros Ha [rest ->] Hm.
  rewrite <- (firstn_skipn 12 m), Hm.
  eexists; cbn [seq map pchIPv4 app nth repeat].
  reflexivity.
Qed.

(** X22: a subnet built on an IPv4 address stays an IPv4 address: whatever
    the prefix length or the mask, the stored network has the IPv4 family
    and still starts with the twelve bytes of the IPv4-mapped prefix. *)
Theorem CSubNet_keeps_ipv4
  (storage : list Z) (addr mask : CNetAddr) (n : Z) :
  length (ip addr) = 16%nat ->
  IsIPv4 addr = true ->
  has_prefix pchIPv4 (ip addr) ->
  (IsIPv4 (network (CSubNet_cidr addr n)) = true /\
   has_prefix pchIPv4 (ip (network (CSubNet_cidr addr n)))) /\
  (IsIPv4 (network (CSubNet_mask storage addr mask)) = true /\
   has_prefix pchIPv4 (ip (network (CSubNet_mask storage addr mask)))).
Proof.
  intros Hlen H4 Hp; split.
  - destruct (CSubNet_cidr_normalized addr n Hlen) as (Hn & _ & Hip & _).
    split; [unfold IsIPv4 in *; rewrite Hn; exact H4 |].
    rewrite Hip; apply prefix_kept; try assumption.
    destruct (Z_le_dec 0 n) as [H0 |];
      [destruct (Z_le_dec n 32) as [H32 |] |].
    + apply (cidr_netmask_ok_inv addr n); [| exact H4].
      apply cidr_netmask_ok_all; rewrite H4; lia.
    + unfold CSubNet_cidr; rewrite H4.
      replace (n <=? 128 - 12 * 8) with false
        by (symmetry; apply Z.leb_gt; lia).
      rewrite andb_false_r; reflexivity.
    + unfold CSubNet_cidr.
      replace (0 <=? n) with false by (symmetry; apply Z.leb_gt; lia).
      reflexivity.
  - destruct (CSubNet_mask_cases storage addr mask)
      as [(_ & HN & _) | (HV & m & E)].
    + rewrite HN; split; assumption.
    + destruct (CSubNet_mask_ipv4_netmask storage addr mask H4 HV) as [HM _].
      rewrite E in HM |- *; cbn [network netmask] in *.
      split; [exact H4 |].
      cbn [set_ip ip]; rewrite (normalize_map _ _ Hlen).
      apply prefix_kept; try assumption.
      rewrite HM; reflexivity.
Qed.

Lemma CSubNet_keeps_ipv4_witness :
  IsIPv4 (network (CSubNet_cidr public4 8)) = true /\
  has_prefix pchIPv4 (ip (network (CSubNet_cidr public4 8))).
Proof.
  apply (CSubNet_keeps_ipv4 [] public4 public4 8);
    [reflexivity | reflexivity | exists [8; 8; 8; 8]; reflexivity].
Defined.

(** X23: a subnet matches the address it was built from exactly when that
    address is valid: for the single-address subnet, and for a
    prefix-length subnet of any length in range. *)
Theorem Match_own_address (addr : CNetAddr) (n : Z) :
  wf_addr addr ->
  Match (CSubNet_single addr) addr = IsValid addr /\
  (0 <= n <= 128 - (if IsIPv4 addr then 12 else 0) * 8 ->
   Match (CSubNet_cidr addr n) addr = IsValid addr).
Proof.
  intros Hwf; pose proof Hwf as [Hlen Hall]; split.
  - unfold Match, CSubNet_single; cbn [valid network netmask].
    rewrite Network_eqb_refl.
    destruct (IsValid addr); [| reflexivity].
    cbn [negb orb]; apply forallb_forall; intros i Hi; apply in_seq in Hi.
    apply Z.eqb_eq.
    change (firstn 16 pchSingleAddressNetmask) with (repeat 255 16).
    rewrite nth_repeat_lt by lia.
    apply land_255_uint8, wf_addr_nth; [exact Hwf | lia].
  - intros Hn.
    destruct (cidr_netmask_ok_inv addr n (cidr_netmask_ok_all addr n Hn))
      as (HV & _).
    destruct (CSubNet_cidr_normalized addr n Hlen) as (Hm & _ & Hip & _).
    unfold Match; rewrite HV, Hm, Network_eqb_refl.
    destruct (IsValid addr); [| reflexivity].
    cbn [negb orb]; apply forallb_forall; intros i Hi; apply in_seq in Hi.
    apply Z.eqb_eq; rewrite Hip, nth_map_seq16 by lia; reflexivity.
Qed.

Lemma Match_own_address_witness :
  Match (CSubNet_single public4) public4 = true /\
  Match (CSubNet_cidr public6 48) public6 = true.
Proof.
  destruct (Match_own_address public4 0) as [H1 _];
    [apply wf_bytesb_correct; reflexivity |].
  destruct (Match_own_address public6 48) as [_ H2];
    [apply wf_bytesb_correct; reflexivity |].
  split; [rewrite H1; reflexivity |].
  rewrite H2; [reflexivity | simpl; lia].
Defined.

(* ================================================================== *)
(** * Matching is comparing prefixes *)
(* ================================================================== *)

Lemma prefix_byte_ok_all (c : Z) : is_uint8 c -> prefix_byte_ok c = true.
Proof. apply forall_uint8; vm_compute; reflexivity. Qed.

Lemma prefix_byte_facts (c : Z) (j : nat) :
  is_uint8 c -> (j <= 8)%nat ->
  firstn j (byte_bits (Z.land c (mask_byte j))) = firstn j (byte_bits c) /\
  Z.land c (mask_byte j)
  = bits_value (firstn j (byte_bits c)) * 2 ^ (8 - Z.of_nat j) /\
  (byte_bits c = prefix_mask_bits j 8 -> c = mask_byte j).
Proof.
  intros Hc Hj; pose proof (prefix_byte_ok_all c Hc) as H.
  unfold prefix_byte_ok in H; rewrite forallb_forall in H.
  specialize (H j ltac:(apply in_seq; lia)).
  rewrite !andb_true_iff in H; destruct H as [[H1 H2] H3].
  split; [destruct (list_eq_dec bool_dec _ _) as [E | _];
          [exact E | discriminate H1] |].
  split; [apply Z.eqb_eq; exact H2 |].
  intros E.
  destruct (list_eq_dec bool_dec (byte_bits c) (prefix_mask_bits j 8))
    as [_ | N]; [apply Z.eqb_eq; exact H3 | contradiction].
Qed.

(** Under a netmask byte with [j] leading one-bits two bytes mask to the
    same value exactly when their [j] leading bits agree. *)
Lemma land_mask_byte (c a m : Z) (j : nat) :
  is_uint8 c -> is_uint8 a -> is_uint8 m -> (j <= 8)%nat ->
  byte_bits m = prefix_mask_bits j 8 ->
  (Z.land c m = Z.land a m <->
   firstn j (byte_bits c) = firstn j (byte_bits a)).
Proof.
  intros Hc Ha Hm Hj Hbits.
  destruct (prefix_byte_facts m j Hm Hj) as (_ & _ & E); rewrite (E Hbits).
  destruct (prefix_byte_facts c j Hc Hj) as (C1 & C2 & _).
  destruct (prefix_byte_facts a j Ha Hj) as (A1 & A2 & _).
  split; intros H.
  - rewrite <- C1, <- A1, H; reflexivity.
  - rewrite C2, A2, H; reflexivity.
Qed.

Lemma app_inj_length {A : Type} (l1 l1' l2 l2' : list A) :
  length l1 = length l1' ->
  l1 ++ l2 = l1' ++ l2' -> l1 = l1' /\ l2 = l2'.
Proof.
  revert l1'; induction l1 as [| x l1 IH]; intros [| y l1'] Hlen H;
    try discriminate Hlen.
  - split; [reflexivity | exact H].
  - injection H as -> H; injection Hlen as Hlen.
    destruct (IH l1' Hlen H) as [-> ->]; split; reflexivity.
Qed.

Lemma length_byte_bits (c : Z) : length (byte_bits c) = 8%nat.
Proof. reflexivity. Qed.

(** The first byte of a prefix mask holds the first eight bits of the
    run of ones, the other bytes what is left of it. *)
Lemma prefix_mask_cons (m : Z) (ms : list Z) (k : nat) :
  (k <= 8 * S (length ms))%nat ->
  bits_of_bytes (m :: ms) = prefix_mask_bits k (8 * S (length ms)) ->
  byte_bits m = prefix_mask_bits (Nat.min k 8) 8 /\
  bits_of_bytes ms = prefix_mask_bits (k - 8) (8 * length ms).
Proof.
  intros Hk H; unfold bits_of_bytes in H; cbn [map concat] in H.
  fold (bits_of_bytes ms) in H.
  unfold prefix_mask_bits in *.
  destruct (Nat.le_gt_cases 8 k) as [Hge | Hlt].
  - replace (Nat.min k 8) with 8%nat by lia.
    replace k with (8 + (k - 8))%nat in H at 1 by lia.
    rewrite repeat_app, <- app_assoc in H.
    apply app_inj_length in H; [| reflexivity].
    destruct H as [H1 H2]; split; [exact H1 |].
    rewrite H2; do 2 f_equal; lia.
  - replace (Nat.min k 8) with k by lia.
    replace (8 * S (length ms) - k)%nat
      with ((8 - k) + 8 * length ms)%nat in H by lia.
    rewrite repeat_app, app_assoc in H.
    apply app_inj_length in H;
      [| rewrite length_byte_bits, length_app, !repeat_length; lia].
    destruct H as [H1 H2]; split; [exact H1 |].
    rewrite H2; replace (k - 8)%nat with 0%nat by lia.
    rewrite Nat.sub_0_r; reflexivity.
Qed.

(** Under a prefix mask of [k] one-bits, two byte strings mask to the same
    bytes exactly when their first [k] bits agree. *)
Lemma land_prefix_mask (ms : list Z) : forall (cs xs : list Z) (k : nat),
  Forall is_uint8 ms -> Forall is_uint8 cs -> Forall is_uint8 xs ->
  length cs = length ms -> length xs = length ms ->
  (k <= 8 * length ms)%nat ->
  bits_of_bytes ms = prefix_mask_bits k (8 * length ms) ->
  ((forall i : nat, (i < length ms)%nat ->
      Z.land (nth i cs 0) (nth i ms 0) = Z.land (nth i xs 0) (nth i ms 0)) <->
   firstn k (bits_of_bytes cs) = firstn k (bits_of_bytes xs)).
Proof.
  induction ms as [| m ms IH]; intros cs xs k Hm Hc Hx Lc Lx Hk Hbits.
  - destruct cs; [| discriminate Lc]; destruct xs; [| discriminate Lx].
    split; [reflexivity | intros _ i Hi; simpl in Hi; lia].
  - destruct cs as [| c cs]; [discriminate Lc |].
    destruct xs as [| x xs]; [discriminate Lx |].
    apply Forall_cons_iff in Hm, Hc, Hx.
    destruct Hm as [Hm Hms], Hc as [Hc Hcs], Hx as [Hx Hxs].
    injection Lc as Lc; injection Lx as Lx.
    destruct (prefix_mask_cons m ms k Hk Hbits) as [Hb Hrest].
    specialize (IH cs xs (k - 8)%nat Hms Hcs Hxs Lc Lx ltac:(simpl in Hk; lia)
                  Hrest).
    pose proof (land_mask_byte c x m (Nat.min k 8) Hc Hx Hm ltac:(lia) Hb)
      as Hbyte.
    assert (Hf : forall b : Z,
               firstn k (byte_bits b) = firstn (Nat.min k 8) (byte_bits b)).
    { intros b; destruct (Nat.le_gt_cases 8 k).
      - rewrite !firstn_all2 by (rewrite length_byte_bits; lia); reflexivity.
      - replace (Nat.min k 8) with k by lia; reflexivity. }
    unfold bits_of_bytes; cbn [map concat].
    fold (bits_of_bytes cs); fold (bits_of_bytes xs).
    rewrite !firstn_app, !length_byte_bits, !Hf.
    split.
    + intros H.
      rewrite (proj1 Hbyte (H 0%nat ltac:(simpl; lia))).
      f_equal; apply IH; intros i Hi.
      apply (H (S i)); simpl; lia.
    + intros H; apply app_inj_length in H;
        [| rewrite !length_firstn, !length_byte_bits; reflexivity].
      destruct H as [H0 Ht]; intros [| i] Hi.
      * apply Hbyte; exact H0.
      * apply (proj2 IH Ht i); simpl in Hi; lia.
Qed.

(** X24: a prefix-length subnet of length [n] in range matches a
    candidate exactly when the candidate is valid, has the family of the
    subnet's address, and agrees with that address on the first
    [offset * 8 + n] bits of the sixteen bytes (offset 12 bytes for IPv4, 0
    otherwise). *)
Theorem Match_cidr_prefix (addr candidate : CNetAddr) (n : Z) :
  wf_addr addr ->
  wf_addr candidate ->
  0 <= n <= 128 - (if IsIPv4 addr then 12 else 0) * 8 ->
  (Match (CSubNet_cidr addr n) candidate = true <->
   IsValid candidate = true /\
   m_net addr = m_net candidate /\
   same_prefix_bits (Z.to_nat ((if IsIPv4 addr then 12 else 0) * 8 + n))
     (ip candidate) (ip addr)).
Proof.
  intros [La Fa] [Lc Fc] Hn.
  destruct (cidr_netmask_ok_inv addr n (cidr_netmask_ok_all addr n Hn))
    as (HV & [Lm Fm] & HB & _).
  destruct (CSubNet_cidr_normalized addr n La) as (Hnet & _ & Hip & _).
  set (s := CSubNet_cidr addr n) in *.
  set (k := Z.to_nat ((if IsIPv4 addr then 12 else 0) * 8 + n)).
  assert (Hk : Z.to_nat ((if IsIPv4 addr then 96 else 0) + n) = k)
    by (unfold k; destruct (IsIPv4 addr); reflexivity).
  rewrite Hk in HB.
  assert (Hbytes :
            (forall i : nat, (i < 16)%nat ->
               Z.land (nth i (ip candidate) 0) (nth i (netmask s) 0)
               = Z.land (nth i (ip addr) 0) (nth i (netmask s) 0)) <->
            same_prefix_bits k (ip candidate) (ip addr)).
  { pose proof (land_prefix_mask (netmask s) (ip candidate) (ip addr) k
                  Fm Fc Fa) as X.
    rewrite Lm in X; apply X; try assumption;
      unfold k; destruct (IsIPv4 addr); lia. }
  unfold Match; rewrite HV, Hnet; cbn [negb orb].
  destruct (IsValid candidate);
    [| cbn [negb orb]; split; [discriminate | intros [H _]; discriminate H]].
  destruct (Network_eqb (m_net addr) (m_net candidate)) eqn:EN.
  - apply Network_eqb_eq in EN; cbn [negb orb].
    rewrite forallb_forall, <- Hbytes; split.
    + intros H; repeat split; try assumption.
      intros i Hi; specialize (H i ltac:(apply in_seq; lia)).
      apply Z.eqb_eq in H; rewrite H, Hip, nth_map_seq16 by lia.
      reflexivity.
    + intros (_ & _ & H) i Hi; apply in_seq in Hi.
      apply Z.eqb_eq; rewrite Hip, nth_map_seq16 by lia.
      apply H; lia.
  - cbn [negb orb]; split; [discriminate |].
    intros (_ & E & _); apply Network_eqb_eq in E.
    rewrite E in EN; discriminate EN.
Qed.

Lemma Match_cidr_prefix_witness :
  Match (CSubNet_cidr (ipv4_addr 192 168 1 0) 24) (ipv4_addr 192 168 1 255)
  = true.
Proof.
  apply (Match_cidr_prefix (ipv4_addr 192 168 1 0) (ipv4_addr 192 168 1 255) 24);
    try (apply wf_bytesb_correct; reflexivity).
  - simpl; lia.
  - split; [reflexivity |]; split; reflexivity.
Defined.

(* ================================================================== *)
(** * An explicit mask and its prefix length *)
(* ================================================================== *)

Lemma cidr_mask_accepted_all (addr : CNetAddr) (n : Z) :
  0 <= n <= 128 - (if IsIPv4 addr then 12 else 0) * 8 ->
  cidr_mask_accepted addr n = true.
Proof.
  intros Hn.
  assert (E : cidr_mask_accepted addr n
              = cidr_mask_accepted (if IsIPv4 addr then public4 else public6) n).
  { destruct (CSubNet_cidr_family addr n) as (HN & _).
    unfold cidr_mask_accepted; cbv zeta in *; rewrite HN.
    destruct (IsIPv4 addr); reflexivity. }
  rewrite E; destruct (IsIPv4 addr).
  - apply (forall_upto (cidr_mask_accepted public4) 32);
      [vm_compute; reflexivity | lia].
  - apply (forall_upto (cidr_mask_accepted public6) 128);
      [vm_compute; reflexivity | lia].
Qed.

Lemma mask_scan_ext (idx : list nat) (l1 l2 : list Z) : forall z : bool,
  (forall i : nat, In i idx -> nth i l1 0 = nth i l2 0) ->
  mask_scan idx l1 z = mask_scan idx l2 z.
Proof.
  induction idx as [| i idx IH]; intros z H; [reflexivity |].
  cbn [mask_scan]; rewrite (H i (or_introl eq_refl)).
  destruct (_ || _); [reflexivity |].
  apply IH; intros j Hj; apply H; right; exact Hj.
Qed.

Lemma fold_upd_copy (m : list Z) (src : list Z) (start : nat) :
  length m = 16%nat -> (start = 0 \/ start = 12)%nat ->
  fold_left (fun nm x => upd nm x (nth x src 0)) (seq start (16 - start)) m
  = firstn start m ++ map (fun x => nth x src 0) (seq start (16 - start)).
Proof.
  intros Hm Hs.
  do 16 (destruct m as [| ? m]; [discriminate Hm |]).
  destruct m; [| discriminate Hm].
  destruct Hs as [-> | ->]; reflexivity.
Qed.

(** X25: an explicit mask that spells a prefix length gives the subnet
    of that prefix length.  When mask and address are both IPv4-family, or
    both not, and the mask bytes from the family offset on are those of the
    netmask for [n], the explicit-mask constructor returns the very subnet
    the prefix-length constructor returns for [n]. *)
Theorem CSubNet_mask_is_cidr
  (storage : list Z) (addr mask : CNetAddr) (n : Z) :
  length (ip addr) = 16%nat ->
  IsIPv4 mask = IsIPv4 addr ->
  0 <= n <= 128 - (if IsIPv4 addr then 12 else 0) * 8 ->
  (forall i : nat,
      ((if IsIPv4 addr then 12 else 0) <= i < 16)%nat ->
      nth i (ip mask) 0 = nth i (netmask (CSubNet_cidr addr n)) 0) ->
  CSubNet_mask storage addr mask = CSubNet_cidr addr n.
Proof.
  intros La Hfam Hn Hbytes.
  pose proof (cidr_mask_accepted_all addr n Hn) as Hacc.
  destruct (cidr_netmask_ok_inv addr n (cidr_netmask_ok_all addr n Hn))
    as (HV & [Lm _] & _ & _ & _ & H12).
  unfold cidr_mask_accepted in Hacc; cbv zeta in Hacc.
  assert (Hscan : mask_scan
                    (seq (if IsIPv4 addr then 12 else 0)
                         (16 - (if IsIPv4 addr then 12 else 0)))
                    (ip mask) false = true).
  { rewrite <- Hacc; apply mask_scan_ext.
    intros i Hi; apply in_seq in Hi; apply Hbytes.
    destruct (IsIPv4 addr); lia. }
  assert (Hmask :
            firstn (if IsIPv4 addr then 12 else 0)
                   (firstn 16 pchSingleAddressNetmask)
            ++ map (fun x => nth x (ip mask) 0)
                   (seq (if IsIPv4 addr then 12 else 0)
                        (16 - (if IsIPv4 addr then 12 else 0)))
            = netmask (CSubNet_cidr addr n)).
  { apply (nth_ext _ _ 0 0).
    - rewrite length_app, length_map, length_seq, Lm.
      destruct (IsIPv4 addr); reflexivity.
    - intros i Hi.
      rewrite length_app, length_map, length_seq in Hi.
      destruct (IsIPv4 addr) eqn:H4.
      + destruct (Nat.lt_ge_cases i 12) as [Hlt | Hge].
        * rewrite app_nth1 by (simpl; lia).
          rewrite <- (firstn_skipn 12 (netmask (CSubNet_cidr addr n))).
          rewrite (H12 eq_refl), app_nth1 by (rewrite repeat_length; lia).
          reflexivity.
        * rewrite app_nth2 by (simpl; lia).
          change (length (firstn 12 (firstn 16 pchSingleAddressNetmask)))
            with 12%nat.
          rewrite <- (Hbytes i) by (simpl in Hi; lia).
          assert (Hc : (i - 12 = 0 \/ i - 12 = 1 \/ i - 12 = 2 \/ i - 12 = 3)%nat)
            by (simpl in Hi; lia).
          replace i with (12 + (i - 12))%nat at 2 by lia.
          destruct Hc as [-> | [-> | [-> | ->]]]; reflexivity.
      + cbn [firstn app].
        rewrite <- (Hbytes i) by (simpl in Hi; lia).
        simpl in Hi.
        do 16 (destruct i as [| i]; [reflexivity |]); lia. }
  unfold CSubNet_mask; rewrite Hfam, Hscan; cbn [negb].
  rewrite fold_upd_copy by (try reflexivity; destruct (IsIPv4 addr); auto).
  rewrite Hmask.
  revert HV; unfold CSubNet_cidr.
  destruct ((0 <=? n) && _); cbn [valid netmask network];
    [reflexivity | discriminate].
Qed.

Lemma CSubNet_mask_is_cidr_witness :
  CSubNet_mask [] (ipv4_addr 192 168 1 77) (ipv4_addr 255 255 255 0)
  = CSubNet_cidr (ipv4_addr 192 168 1 77) 24.
Proof.
  apply CSubNet_mask_is_cidr; try reflexivity.
  - simpl; lia.
  - intros i Hi.
    assert (Hc : i = 12%nat \/ i = 13%nat \/ i = 14%nat \/ i = 15%nat)
      by (simpl in Hi; lia).
    destruct Hc as [-> | [-> | [-> | ->]]]; reflexivity.
Defined.

(* ================================================================== *)
(** * The bits handed to the AS-number oracle *)
(* ================================================================== *)

Lemma testbit_be_byte (v : Z) (sh i : Z) :
  0 <= sh -> 0 <= i < 8 ->
  Z.testbit (Z.land (Z.shiftr v sh) 0xFF) i = Z.testbit v (sh + i).
Proof.
  intros Hsh Hi.
  rewrite Z.land_spec, Z.shiftr_spec by lia.
  change 0xFF with (Z.ones 8); rewrite Z.ones_spec_low by lia.
  rewrite andb_true_r; f_equal; lia.
Qed.

Lemma testbit_low_byte (v : Z) (i : Z) :
  0 <= i < 8 -> Z.testbit (Z.land v 0xFF) i = Z.testbit v i.
Proof.
  intros Hi; rewrite Z.land_spec.
  change 0xFF with (Z.ones 8); rewrite Z.ones_spec_low by lia.
  apply andb_true_r.
Qed.

Lemma word_bits_be_bytes (v : Z) :
  word_bits v = bits_of_bytes (be_bytes32 v).
Proof.
  unfold word_bits, bits_of_bytes, be_bytes32, byte_bits.
  cbn [seq map concat app Z.of_nat Pos.of_succ_nat Pos.succ].
  rewrite !testbit_be_byte, !testbit_low_byte by lia.
  reflexivity.
Qed.

(** X26: the 128 bits under which an address is looked up in the AS-map
    are the bits of its sixteen bytes, most significant first; for an
    address with a linked IPv4 address they are the bits of the IPv4-mapped
    form of the embedded address, the prefix [pchIPv4] followed by its four
    bytes. *)
Theorem GetMappedAS_ip_bits_spec (a : CNetAddr) :
  length (ip a) = 16%nat ->
  (HasLinkedIPv4 a = false ->
   GetMappedAS_ip_bits a = Some (bits_of_bytes (ip a))) /\
  (forall v : Z,
      HasLinkedIPv4 a = true ->
      GetLinkedIPv4 a = Some v ->
      GetMappedAS_ip_bits a = Some (bits_of_bytes (pchIPv4 ++ be_bytes32 v))).
Proof.
  intros Hlen; unfold GetMappedAS_ip_bits; split.
  - intros ->; f_equal; unfold GetByte.
    destruct (ip a) as [| ? l]; [discriminate Hlen |].
    do 15 (destruct l as [| ? l]; [discriminate Hlen |]).
    destruct l; [reflexivity | discriminate Hlen].
  - intros v -> ->; cbn [obind]; f_equal.
    rewrite word_bits_be_bytes.
    unfold bits_of_bytes; rewrite map_app, concat_app; reflexivity.
Qed.

Lemma GetMappedAS_ip_bits_spec_witness :
  GetMappedAS_ip_bits sixto4
  = Some (bits_of_bytes (pchIPv4 ++ [8; 8; 9; 9])).
Proof.
  apply (proj2 (GetMappedAS_ip_bits_spec sixto4 eq_refl) 0x08080909);
    reflexivity.
Defined.
